(** * Shadow's epoll system-call front-end

    A shallow embedding of [src/main/host/syscall/epoll.c]: the four
    handlers [syscallhandler_epoll_create], [syscallhandler_epoll_create1],
    [syscallhandler_epoll_ctl] and [syscallhandler_epoll_wait], together
    with the helper [_syscallhandler_createEpollHelper].

    The handlers are written in a small state-and-abort monad.  The state
    is the simulated world owned by the collaborators of the front-end (the
    host's descriptor table, the plugin's memory, the epoll engine and the
    scheduler) plus a log of every collaborator call the handler makes, in
    program order.  A failed [utility_assert] aborts the run.

    The collaborators are an interface, [Collaborators], whose laws are the
    conditions the source asserts; what the specification adds about them
    is kept apart in [SpecContract].  [Reference.reference] implements both
    after the specification. *)

From Stdlib Require Import ZArith List Bool Lia Floats.
From stdpp Require Import base option list gmap strings.

Open Scope Z_scope.

(** ** Machine integers *)

(** A value reduced to a two's-complement integer of [bits] bits. *)
Definition wrap_signed (bits z : Z) : Z :=
  (z + 2 ^ (bits - 1)) mod 2 ^ bits - 2 ^ (bits - 1).

(** [gint] is a 32-bit int; storing an [int64_t] into it truncates. *)
Definition to_gint (z : Z) : Z := wrap_signed 32 z.

(** [(guint) x] *)
Definition to_guint (z : Z) : Z := z mod 2 ^ 32.

(** ** Constants of <errno.h> and <sys/epoll.h> *)

Definition EINVAL : Z := 22.
Definition EFAULT : Z := 14.
Definition EBADF : Z := 9.
Definition EEXIST : Z := 17.
Definition ENOENT : Z := 2.

(** 02000000 in octal *)
Definition EPOLL_CLOEXEC : Z := 524288.

(** [struct epoll_event]: a 32-bit mask and a 64-bit user token; the
    structure is packed on x86-64, 12 bytes. *)
Record epoll_event := { events : Z; data : Z }.

Definition sizeof_epoll_event : Z := 12.

(** ** System-call registers, arguments and results *)

(** A register is 64 bits wide and is read through one of the views of the
    union [SysCallReg]. *)
Definition SysCallReg := Z.

Record PluginPtr := { val : Z }.

Definition as_i64 (r : SysCallReg) : Z := wrap_signed 64 r.
Definition as_ptr (r : SysCallReg) : PluginPtr := {| val := r mod 2 ^ 64 |}.

Record SysCallArgs := { number : Z; args : nat -> SysCallReg }.

Inductive SysCallReturnState := SYSCALL_DONE | SYSCALL_BLOCK.

(** [retval] is the [as_i64] view of the result register. *)
Record SysCallReturn := { state : SysCallReturnState; retval : Z }.

(** ** Descriptor tags *)

(** The handlers name [DT_NONE] (no expectation) and [DT_EPOLL];
    [DT_OTHER] stands for every other tag. *)
Inductive DescriptorType := DT_NONE | DT_EPOLL | DT_OTHER.

Inductive DescriptorStatus := DS_ACTIVE | DS_READABLE | DS_WRITABLE | DS_CLOSED.

(** The timer owned by the system-call handler, [sys->timer]. *)
Inductive Timer := sys_timer.

(** ** The collaborators of the front-end

    None of the functions below is defined in [epoll.c]; they belong to the
    host, the descriptor layer, the thread, the process and the epoll
    engine.  They are taken as an interface.  Queries read the world,
    commands transform it.  A [Descriptor] is a non-null [Descriptor*];
    [None] is NULL. *)
Class Collaborators := {
  World : Type;
  Descriptor : Type;
  EventBuffer : Type;

  (* main/host/host.h *)
  host_createDescriptor : DescriptorType -> World -> option Descriptor * World;
  host_lookupDescriptor : World -> Z -> option Descriptor;
  host_getOSHandle : World -> Z -> Z;

  (* main/host/descriptor/descriptor.h *)
  descriptor_addFlags : Descriptor -> Z -> World -> World;
  descriptor_getHandle : World -> Descriptor -> Z;

  (* main/host/syscall/protected.h *)
  _syscallhandler_validateDescriptor :
    World -> option Descriptor -> DescriptorType -> Z;
  _syscallhandler_wasBlocked : World -> bool;
  _syscallhandler_setListenTimeoutMillis : Z -> World -> World;

  (* main/host/process.h and the thread it runs *)
  process_listenForStatus :
    option Timer -> Descriptor -> DescriptorStatus -> World -> World;
  thread_getReadablePtr : World -> PluginPtr -> Z -> epoll_event;
  thread_getWriteablePtr : World -> PluginPtr -> Z -> EventBuffer;

  (* main/host/descriptor/epoll.h *)
  epoll_control : Descriptor -> Z -> Descriptor -> epoll_event -> World -> Z * World;
  epoll_controlOS : Descriptor -> Z -> Z -> epoll_event -> World -> Z * World;
  epoll_getNumReadyEvents : World -> Descriptor -> N;
  epoll_getEvents : Descriptor -> EventBuffer -> Z -> World -> (Z * Z) * World;

  (** The contract the handlers rely on: the conditions the source checks
      with [utility_assert]. *)

  (* epoll.c:30-31 *)
  host_createDescriptor_epoll : forall w od w',
    host_createDescriptor DT_EPOLL w = (od, w') ->
    exists desc, od = Some desc /\
      _syscallhandler_validateDescriptor w' (Some desc) DT_EPOLL = 0;
  (* epoll.c:94, 104, 146, 150 *)
  validateDescriptor_null : forall w t,
    _syscallhandler_validateDescriptor w None t <> 0;
  (* epoll.c:196 *)
  epoll_getEvents_result : forall epoll buf n w,
    fst (fst (epoll_getEvents epoll buf n w)) = 0
}.

(** Modelled from the spec: [epoll_getEvents] and [descriptor_getHandle] are
    absent from the sources; what they answer is taken from sections 4.2
    and 6.

    "numReady(): returns the count of entries with a non-empty triggered
    mask"; "getEvents(capacity): produces, in watch-table insertion order,
    up to capacity ready events; entries beyond capacity remain ready".

    "epoll_create: success: new fd": a handle is a file descriptor number,
    never negative. *)
Class SpecContract (C : Collaborators) : Prop := {
  epoll_getEvents_count : forall epoll buf n w,
    0 <= n ->
    snd (fst (epoll_getEvents epoll buf n w)) =
      Z.min n (Z.of_N (epoll_getNumReadyEvents w epoll));
  descriptor_getHandle_nonneg : forall w desc, 0 <= descriptor_getHandle w desc
}.

(** ** The log of collaborator calls *)

Inductive Call `{Collaborators} : Type :=
| Call_host_createDescriptor (type : DescriptorType)
| Call_host_lookupDescriptor (handle : Z)
| Call_host_getOSHandle (handle : Z)
| Call_descriptor_addFlags (desc : Descriptor) (flags : Z)
| Call_descriptor_getHandle (desc : Descriptor)
| Call_validateDescriptor (desc : option Descriptor) (expected : DescriptorType)
| Call_wasBlocked
| Call_setListenTimeoutMillis (timeout_ms : Z)
| Call_process_listenForStatus
    (timer : option Timer) (desc : Descriptor) (status : DescriptorStatus)
| Call_thread_getReadablePtr (ptr : PluginPtr) (size : Z)
| Call_thread_getWriteablePtr (ptr : PluginPtr) (size : Z)
| Call_epoll_control (epoll : Descriptor) (op : Z) (child : Descriptor)
    (event : epoll_event)
| Call_epoll_controlOS (epoll : Descriptor) (op : Z) (osfd : Z)
    (event : epoll_event)
| Call_epoll_getNumReadyEvents (epoll : Descriptor)
| Call_epoll_getEvents (epoll : Descriptor) (buf : EventBuffer) (n : Z).

(** ** The handler monad *)

Section Handlers.
Context `{C : Collaborators}.

Record St := { world : World; calls : list Call }.

(** [None] is a run aborted by a failed assertion. *)
Definition M (A : Type) : Type := St -> option (A * St).

Definition ret {A} (a : A) : M A := fun s => Some (a, s).

Definition bind {A B} (m : M A) (k : A -> M B) : M B :=
  fun s => match m s with
           | Some (a, s') => k a s'
           | None => None
           end.

Definition abort {A} : M A := fun _ => None.

(** A query: reads the world and is logged. *)
Definition query {A} (c : Call) (f : World -> A) : M A :=
  fun s => Some (f (world s), {| world := world s; calls := calls s ++ [c] |}).

(** A command: transforms the world and is logged. *)
Definition command {A} (c : Call) (f : World -> A * World) : M A :=
  fun s => let '(a, w') := f (world s) in
           Some (a, {| world := w'; calls := calls s ++ [c] |}).

End Handlers.

Declare Scope handler_scope.
Delimit Scope handler_scope with handler.
Notation "x <- m ;; k" := (bind m (fun x => k))
  (at level 100, m at next level, right associativity) : handler_scope.
Notation "m ;;; k" := (bind m (fun _ => k))
  (at level 100, right associativity) : handler_scope.

Section Handlers.
Context `{C : Collaborators}.
Local Open Scope handler_scope.

(** [utility_assert(expr)] *)
Definition utility_assert (b : bool) : M unit :=
  if b then ret tt else abort.

(** [utility_assert(p)] on a pointer, after which [p] is dereferenced. *)
Definition utility_assert_ptr {A} (p : option A) : M A :=
  match p with
  | Some a => ret a
  | None => abort
  end.

(** *** Collaborator calls, logged *)

Definition host_createDescriptorM (type : DescriptorType) : M (option Descriptor) :=
  command (Call_host_createDescriptor type) (host_createDescriptor type).

Definition host_lookupDescriptorM (handle : Z) : M (option Descriptor) :=
  query (Call_host_lookupDescriptor handle) (fun w => host_lookupDescriptor w handle).

Definition host_getOSHandleM (handle : Z) : M Z :=
  query (Call_host_getOSHandle handle) (fun w => host_getOSHandle w handle).

Definition descriptor_addFlagsM (desc : Descriptor) (flags : Z) : M unit :=
  command (Call_descriptor_addFlags desc flags)
          (fun w => (tt, descriptor_addFlags desc flags w)).

Definition descriptor_getHandleM (desc : Descriptor) : M Z :=
  query (Call_descriptor_getHandle desc) (fun w => descriptor_getHandle w desc).

Definition validateDescriptorM (desc : option Descriptor) (expected : DescriptorType) : M Z :=
  query (Call_validateDescriptor desc expected)
        (fun w => _syscallhandler_validateDescriptor w desc expected).

Definition wasBlockedM : M bool :=
  query Call_wasBlocked _syscallhandler_wasBlocked.

Definition setListenTimeoutMillisM (timeout_ms : Z) : M unit :=
  command (Call_setListenTimeoutMillis timeout_ms)
          (fun w => (tt, _syscallhandler_setListenTimeoutMillis timeout_ms w)).

Definition process_listenForStatusM
    (timer : option Timer) (desc : Descriptor) (status : DescriptorStatus) : M unit :=
  command (Call_process_listenForStatus timer desc status)
          (fun w => (tt, process_listenForStatus timer desc status w)).

Definition thread_getReadablePtrM (ptr : PluginPtr) (size : Z) : M epoll_event :=
  query (Call_thread_getReadablePtr ptr size) (fun w => thread_getReadablePtr w ptr size).

Definition thread_getWriteablePtrM (ptr : PluginPtr) (size : Z) : M EventBuffer :=
  query (Call_thread_getWriteablePtr ptr size) (fun w => thread_getWriteablePtr w ptr size).

Definition epoll_controlM (epoll : Descriptor) (op : Z) (child : Descriptor)
    (event : epoll_event) : M Z :=
  command (Call_epoll_control epoll op child event) (epoll_control epoll op child event).

Definition epoll_controlOSM (epoll : Descriptor) (op osfd : Z)
    (event : epoll_event) : M Z :=
  command (Call_epoll_controlOS epoll op osfd event) (epoll_controlOS epoll op osfd event).

Definition epoll_getNumReadyEventsM (epoll : Descriptor) : M N :=
  query (Call_epoll_getNumReadyEvents epoll) (fun w => epoll_getNumReadyEvents w epoll).

Definition epoll_getEventsM (epoll : Descriptor) (buf : EventBuffer) (n : Z) : M (Z * Z) :=
  command (Call_epoll_getEvents epoll buf n) (epoll_getEvents epoll buf n).

(** *** Arguments as the handlers read them *)

(** [gint x = args->args[i].as_i64;] *)
Definition arg_gint (a : SysCallArgs) (i : nat) : Z := to_gint (as_i64 (args a i)).

Definition create_size (a : SysCallArgs) : Z := as_i64 (args a 0).
Definition create1_flags (a : SysCallArgs) : Z := as_i64 (args a 0).

Definition ctl_epfd (a : SysCallArgs) : Z := arg_gint a 0.
Definition ctl_op (a : SysCallArgs) : Z := arg_gint a 1.
Definition ctl_fd (a : SysCallArgs) : Z := arg_gint a 2.
Definition ctl_eventPtr (a : SysCallArgs) : PluginPtr := as_ptr (args a 3).

Definition wait_epfd (a : SysCallArgs) : Z := arg_gint a 0.
Definition wait_eventsPtr (a : SysCallArgs) : PluginPtr := as_ptr (args a 1).
Definition wait_maxevents (a : SysCallArgs) : Z := arg_gint a 2.
Definition wait_timeout_ms (a : SysCallArgs) : Z := arg_gint a 3.

Definition syscall_done (result : Z) : SysCallReturn :=
  {| state := SYSCALL_DONE; retval := result |}.

(** [(SysCallReturn){.state = SYSCALL_BLOCK}]: the result register is
    zero-initialised. *)
Definition syscall_block : SysCallReturn :=
  {| state := SYSCALL_BLOCK; retval := 0 |}.

(** *** Helpers *)

Definition _syscallhandler_createEpollHelper (size flags : Z) : M Z :=
  if (size <=? 0) || (negb (flags =? 0) && negb (flags =? EPOLL_CLOEXEC)) then
    ret (- EINVAL)
  else
    desc <- host_createDescriptorM DT_EPOLL ;;
    desc <- utility_assert_ptr desc ;;
    valid <- validateDescriptorM (Some desc) DT_EPOLL ;;
    utility_assert (valid =? 0) ;;;
    (if negb (Z.land flags EPOLL_CLOEXEC =? 0)
     then descriptor_addFlagsM desc EPOLL_CLOEXEC
     else ret tt) ;;;
    descriptor_getHandleM desc.

(** *** System calls *)

Definition syscallhandler_epoll_create (a : SysCallArgs) : M SysCallReturn :=
  let size := create_size a in
  result <- _syscallhandler_createEpollHelper size 0 ;;
  ret (syscall_done result).

Definition syscallhandler_epoll_create1 (a : SysCallArgs) : M SysCallReturn :=
  let flags := create1_flags a in
  result <- _syscallhandler_createEpollHelper 1 flags ;;
  ret (syscall_done result).

Definition syscallhandler_epoll_ctl (a : SysCallArgs) : M SysCallReturn :=
  let epfd := ctl_epfd a in
  let op := ctl_op a in
  let fd := ctl_fd a in
  let eventPtr := ctl_eventPtr a in
  if val eventPtr =? 0 then ret (syscall_done (- EFAULT))
  else if epfd =? fd then ret (syscall_done (- EINVAL))
  else
    descriptor <- host_lookupDescriptorM epfd ;;
    errorCode <- validateDescriptorM descriptor DT_EPOLL ;;
    if negb (errorCode =? 0) then ret (syscall_done errorCode)
    else
      epoll <- utility_assert_ptr descriptor ;;
      descriptor <- host_lookupDescriptorM fd ;;
      errorCode <- validateDescriptorM descriptor DT_NONE ;;
      event <- thread_getReadablePtrM eventPtr sizeof_epoll_event ;;
      errorCode <-
        (if errorCode =? 0 then
           child <- utility_assert_ptr descriptor ;;
           epoll_controlM epoll op child event
         else
           osfd <- host_getOSHandleM fd ;;
           let osfd := if 0 <=? osfd then osfd else fd in
           epoll_controlOSM epoll op osfd event) ;;
      ret (syscall_done errorCode).

Definition syscallhandler_epoll_wait (a : SysCallArgs) : M SysCallReturn :=
  let epfd := wait_epfd a in
  let eventsPtr := wait_eventsPtr a in
  let maxevents := wait_maxevents a in
  let timeout_ms := wait_timeout_ms a in
  if maxevents <=? 0 then ret (syscall_done (- EINVAL))
  else if val eventsPtr =? 0 then ret (syscall_done (- EFAULT))
  else
    descriptor <- host_lookupDescriptorM epfd ;;
    errorCode <- validateDescriptorM descriptor DT_EPOLL ;;
    if negb (errorCode =? 0) then ret (syscall_done errorCode)
    else
      epoll <- utility_assert_ptr descriptor ;;
      numReadyEvents <- epoll_getNumReadyEventsM epoll ;;
      let numReadyEvents := Z.of_N numReadyEvents in
      if numReadyEvents =? 0 then
        mustReturn <-
          (if timeout_ms =? 0 then ret true else wasBlockedM) ;;
        if mustReturn : bool then ret (syscall_done 0)
        else
          (if 0 <? timeout_ms
           then setListenTimeoutMillisM timeout_ms
           else ret tt) ;;;
          process_listenForStatusM
            (if 0 <? timeout_ms then Some sys_timer else None)
            epoll DS_READABLE ;;;
          ret syscall_block
      else
        let numEventsNeeded := Z.min (to_guint maxevents) numReadyEvents in
        let sizeNeeded := sizeof_epoll_event * numEventsNeeded in
        events <- thread_getWriteablePtrM eventsPtr sizeNeeded ;;
        got <- epoll_getEventsM epoll events numEventsNeeded ;;
        let result := fst got in
        let nEvents := snd got in
        utility_assert (result =? 0) ;;;
        ret (syscall_done nEvents).

(** *** Reading the log *)

(** The calls by which a handler asks the scheduler to suspend the thread:
    arming the listen timeout and registering the status listener. *)
Definition registers_wake (c : Call) : bool :=
  match c with
  | Call_setListenTimeoutMillis _ | Call_process_listenForStatus _ _ _ => true
  | _ => false
  end.

(** The epoll handle [epfd] resolves to the valid epoll [epoll]. *)
Definition resolves_epoll (w : World) (epfd : Z) (epoll : Descriptor) : Prop :=
  host_lookupDescriptor w epfd = Some epoll /\
  _syscallhandler_validateDescriptor w (Some epoll) DT_EPOLL = 0.

(** The calls common to every [epoll_wait] that reaches the engine. *)
Definition wait_prologue (a : SysCallArgs) (epoll : Descriptor) : list Call :=
  [ Call_host_lookupDescriptor (wait_epfd a);
    Call_validateDescriptor (Some epoll) DT_EPOLL;
    Call_epoll_getNumReadyEvents epoll ].

(** The calls common to every [epoll_ctl] that reaches the engine. *)
Definition ctl_prologue (a : SysCallArgs) (epoll : Descriptor) (w : World) : list Call :=
  [ Call_host_lookupDescriptor (ctl_epfd a);
    Call_validateDescriptor (Some epoll) DT_EPOLL;
    Call_host_lookupDescriptor (ctl_fd a);
    Call_validateDescriptor (host_lookupDescriptor w (ctl_fd a)) DT_NONE;
    Call_thread_getReadablePtr (ctl_eventPtr a) sizeof_epoll_event ].

(** A run that starts with an empty log. *)
Definition start (w : World) : St := {| world := w; calls := [] |}.

(** What a run answered, what it logged, and the world it left. *)
Definition answer (run : option (SysCallReturn * St)) : option SysCallReturn :=
  match run with
  | Some (r, _) => Some r
  | None => None
  end.

Definition trace (run : option (SysCallReturn * St)) : list Call :=
  match run with
  | Some (_, s) => calls s
  | None => []
  end.

Definition outcome (run : option (SysCallReturn * St)) : option World :=
  match run with
  | Some (_, s) => Some (world s)
  | None => None
  end.


End Handlers.

(** ** A reference implementation of the collaborators

    Modelled from the spec: the descriptor table, the plugin memory, the
    scheduler and the epoll readiness engine are absent from the sources.
    The definitions of this module follow sections 3, 4.1, 4.2 and 6 of the
    specification.  They show that the contract of [Collaborators] can be
    met and give the handlers a world to run in. *)
Module Reference.

(** What a watch entry refers to: a simulated descriptor, by handle, or a
    descriptor of the operating system. *)
Inductive Child := SimChild (handle : N) | OSChild (osfd : Z).

Global Instance Child_eq_dec : EqDecision Child.
Proof. solve_decision. Defined.

(** "WatchEntry: a reference to a watched child, an interest bitmask and an
    opaque 64-bit user token returned verbatim on delivery." *)
Record WatchEntry := { child : Child; interest : Z; token : Z }.

(** "Descriptor: a type tag, current status bits, and close-on-exec flag";
    an epoll also owns its watch table, in insertion order. *)
Record DescriptorObj := {
  d_type : DescriptorType;
  d_closed : bool;
  d_status : Z;
  d_flags : Z;
  d_watches : list WatchEntry
}.

Record EventWindow := { win_ptr : PluginPtr; win_size : Z }.

Record RefWorld := {
  descriptors : gmap N DescriptorObj;
  next_handle : N;
  os_handles : gmap Z Z;
  os_status : gmap Z Z;
  plugin_memory : gmap Z epoll_event;
  was_blocked : bool;
  listen_timeout : option Z;
  listeners : list (option Timer * N * DescriptorStatus);
  written : list (EventWindow * list epoll_event)
}.

Definition set_descriptors (f : gmap N DescriptorObj -> gmap N DescriptorObj)
    (w : RefWorld) : RefWorld :=
  {| descriptors := f (descriptors w); next_handle := next_handle w;
     os_handles := os_handles w; os_status := os_status w;
     plugin_memory := plugin_memory w; was_blocked := was_blocked w;
     listen_timeout := listen_timeout w; listeners := listeners w;
     written := written w |}.

Definition new_descriptor (type : DescriptorType) : DescriptorObj :=
  {| d_type := type; d_closed := false; d_status := 0; d_flags := 0;
     d_watches := [] |}.

(** "descriptor table: create(type) -> handle" *)
Definition ref_createDescriptor (type : DescriptorType) (w : RefWorld)
    : option N * RefWorld :=
  let h := next_handle w in
  (Some h,
   {| descriptors := <[h := new_descriptor type]> (descriptors w);
      next_handle := N.succ h;
      os_handles := os_handles w; os_status := os_status w;
      plugin_memory := plugin_memory w; was_blocked := was_blocked w;
      listen_timeout := listen_timeout w; listeners := listeners w;
      written := written w |}).

Definition ref_lookupDescriptor (w : RefWorld) (handle : Z) : option N :=
  if 0 <=? handle then
    match descriptors w !! Z.to_N handle with
    | Some _ => Some (Z.to_N handle)
    | None => None
    end
  else None.

(** "osHandleFor(handle) -> rawFd | none"; none is a negative result. *)
Definition ref_getOSHandle (w : RefWorld) (handle : Z) : Z :=
  default (-1) (os_handles w !! handle).

Definition type_eqb (a b : DescriptorType) : bool :=
  match a, b with
  | DT_NONE, DT_NONE | DT_EPOLL, DT_EPOLL | DT_OTHER, DT_OTHER => true
  | _, _ => false
  end.

(** "the lookup returns either the typed object, a not-found signal, or a
    wrong-type signal", mapped to different POSIX errors. *)
Definition ref_validateDescriptor (w : RefWorld) (desc : option N)
    (expected : DescriptorType) : Z :=
  match desc with
  | None => - EBADF
  | Some h =>
      match descriptors w !! h with
      | None => - EBADF
      | Some d =>
          if d_closed d then - EBADF
          else if negb (type_eqb expected DT_NONE)
                  && negb (type_eqb (d_type d) expected)
               then - EINVAL
               else 0
      end
  end.

Definition add_flags (flags : Z) (d : DescriptorObj) : DescriptorObj :=
  {| d_type := d_type d; d_closed := d_closed d; d_status := d_status d;
     d_flags := Z.lor (d_flags d) flags; d_watches := d_watches d |}.

Definition ref_addFlags (desc : N) (flags : Z) (w : RefWorld) : RefWorld :=
  set_descriptors (alter (add_flags flags) desc) w.

Definition ref_getHandle (w : RefWorld) (desc : N) : Z := Z.of_N desc.

Definition ref_setListenTimeoutMillis (timeout_ms : Z) (w : RefWorld) : RefWorld :=
  {| descriptors := descriptors w; next_handle := next_handle w;
     os_handles := os_handles w; os_status := os_status w;
     plugin_memory := plugin_memory w; was_blocked := was_blocked w;
     listen_timeout := Some timeout_ms; listeners := listeners w;
     written := written w |}.

(** "scheduler: listenForStatus(thread, optionalTimer, descriptor,
    statusMask) registers the wake condition" *)
Definition ref_listenForStatus (timer : option Timer) (desc : N)
    (status : DescriptorStatus) (w : RefWorld) : RefWorld :=
  {| descriptors := descriptors w; next_handle := next_handle w;
     os_handles := os_handles w; os_status := os_status w;
     plugin_memory := plugin_memory w; was_blocked := was_blocked w;
     listen_timeout := listen_timeout w;
     listeners := listeners w ++ [(timer, desc, status)];
     written := written w |}.

(** "readable window(ptr, len) -> bytes", read as one event record. *)
Definition ref_getReadablePtr (w : RefWorld) (ptr : PluginPtr) (size : Z)
    : epoll_event :=
  default {| events := 0; data := 0 |} (plugin_memory w !! val ptr).

(** "writable window(ptr, len) -> buffer" *)
Definition ref_getWriteablePtr (w : RefWorld) (ptr : PluginPtr) (size : Z)
    : EventWindow :=
  {| win_ptr := ptr; win_size := size |}.

(** *** The readiness engine (section 4.2) *)

(** Operation codes as section 6 lists them. *)
Definition CTL_ADD : Z := 1.
Definition CTL_MOD : Z := 2.
Definition CTL_DEL : Z := 3.

Definition watches_child (c : Child) (e : WatchEntry) : bool :=
  bool_decide (child e = c).

Definition watched (c : Child) (ws : list WatchEntry) : bool :=
  existsb (watches_child c) ws.

(** "ADD on an already-watched child: EEXIST, no mutation.  MOD/DEL on a
    not-watched child: ENOENT, no mutation.  Otherwise inserts, updates or
    removes the entry.  EINVAL for a malformed op code." *)
Definition control_watches (op : Z) (c : Child) (ev : epoll_event)
    (ws : list WatchEntry) : Z * list WatchEntry :=
  let entry := {| child := c; interest := events ev; token := data ev |} in
  if op =? CTL_ADD then
    if watched c ws then (- EEXIST, ws) else (0, ws ++ [entry])
  else if op =? CTL_MOD then
    if watched c ws
    then (0, map (fun e => if watches_child c e then entry else e) ws)
    else (- ENOENT, ws)
  else if op =? CTL_DEL then
    if watched c ws
    then (0, List.filter (fun e => negb (watches_child c e)) ws)
    else (- ENOENT, ws)
  else (- EINVAL, ws).

Definition set_watches (ws : list WatchEntry) (d : DescriptorObj) : DescriptorObj :=
  {| d_type := d_type d; d_closed := d_closed d; d_status := d_status d;
     d_flags := d_flags d; d_watches := ws |}.

Definition control_child (epoll : N) (op : Z) (c : Child) (ev : epoll_event)
    (w : RefWorld) : Z * RefWorld :=
  match descriptors w !! epoll with
  | None => (- EBADF, w)
  | Some d =>
      let '(result, ws) := control_watches op c ev (d_watches d) in
      (result, set_descriptors (insert epoll (set_watches ws d)) w)
  end.

Definition ref_control (epoll : N) (op : Z) (desc : N) (ev : epoll_event)
    (w : RefWorld) : Z * RefWorld :=
  control_child epoll op (SimChild desc) ev w.

Definition ref_controlOS (epoll : N) (op : Z) (osfd : Z) (ev : epoll_event)
    (w : RefWorld) : Z * RefWorld :=
  control_child epoll op (OSChild osfd) ev w.

(** "for a simulated child, tests its current status bits against the
    entry's interest mask; for an OS-backed entry, performs a zero-timeout
    poll of that single descriptor" *)
Definition child_status (w : RefWorld) (c : Child) : Z :=
  match c with
  | SimChild h =>
      match descriptors w !! h with
      | Some d => d_status d
      | None => 0
      end
  | OSChild osfd => default 0 (os_status w !! osfd)
  end.

Definition triggered (w : RefWorld) (e : WatchEntry) : Z :=
  Z.land (child_status w (child e)) (interest e).

Definition is_ready (w : RefWorld) (e : WatchEntry) : bool :=
  negb (triggered w e =? 0).

Definition watch_table (w : RefWorld) (epoll : N) : list WatchEntry :=
  match descriptors w !! epoll with
  | Some d => d_watches d
  | None => []
  end.

Definition ready_entries (w : RefWorld) (epoll : N) : list WatchEntry :=
  List.filter (is_ready w) (watch_table w epoll).

(** "Returns the count of entries with a non-empty triggered mask." *)
Definition ref_getNumReadyEvents (w : RefWorld) (epoll : N) : N :=
  N.of_nat (length (ready_entries w epoll)).

(** "each event carries the triggered bitmask and the entry's stored user
    token" *)
Definition event_of (w : RefWorld) (e : WatchEntry) : epoll_event :=
  {| events := triggered w e; data := token e |}.

(** "produces, in watch-table insertion order, up to capacity ready
    events"; the events are written through the window. *)
Definition ref_getEvents (epoll : N) (buf : EventWindow) (n : Z) (w : RefWorld)
    : (Z * Z) * RefWorld :=
  let evs := take (Z.to_nat n) (map (event_of w) (ready_entries w epoll)) in
  ((0, Z.of_nat (length evs)),
   {| descriptors := descriptors w; next_handle := next_handle w;
      os_handles := os_handles w; os_status := os_status w;
      plugin_memory := plugin_memory w; was_blocked := was_blocked w;
      listen_timeout := listen_timeout w; listeners := listeners w;
      written := written w ++ [(buf, evs)] |}).

(** *** Sample worlds and calls *)

Definition EPOLLIN : Z := 1.

Definition socket (status : Z) : DescriptorObj :=
  {| d_type := DT_OTHER; d_closed := false; d_status := status; d_flags := 0;
     d_watches := [] |}.

Definition epoll_watching (ws : list WatchEntry) : DescriptorObj :=
  {| d_type := DT_EPOLL; d_closed := false; d_status := 0; d_flags := 0;
     d_watches := ws |}.

(** Epoll 3 watches socket 4 for input with token 42; descriptor 7 of the
    plugin is the OS descriptor 100; an event record lies at 4096. *)
Definition sample_world (socket_status : Z) (blocked : bool) : RefWorld :=
  {| descriptors :=
       <[3%N := epoll_watching
                  [ {| child := SimChild 4; interest := EPOLLIN; token := 42 |} ]]>
         (<[4%N := socket socket_status]> ∅);
     next_handle := 5;
     os_handles := {[ 7 := 100 ]};
     os_status := ∅;
     plugin_memory := {[ 4096 := {| events := EPOLLIN; data := 42 |} ]};
     was_blocked := blocked;
     listen_timeout := None;
     listeners := [];
     written := [] |}.

Definition syscall_args (nr : Z) (regs : list SysCallReg) : SysCallArgs :=
  {| number := nr; args := fun i => nth i regs 0 |}.

(** x86-64 system call numbers *)
Definition SYS_epoll_create : Z := 213.
Definition SYS_epoll_wait : Z := 232.
Definition SYS_epoll_ctl : Z := 233.
Definition SYS_epoll_create1 : Z := 291.

Definition idle : RefWorld := sample_world 0 false.
Definition idle_resumed : RefWorld := sample_world 0 true.
Definition readable : RefWorld := sample_world EPOLLIN false.

(** [epoll_create(size)] and [epoll_create1(flags)] *)
Definition create_call (size : Z) : SysCallArgs :=
  syscall_args SYS_epoll_create [size].
Definition create1_call (flags : Z) : SysCallArgs :=
  syscall_args SYS_epoll_create1 [flags].

(** [epoll_ctl(epfd, op, fd, event)] *)
Definition ctl_call (epfd op fd event : Z) : SysCallArgs :=
  syscall_args SYS_epoll_ctl [epfd; op; fd; event].

(** [epoll_wait(3, 4096, maxevents, timeout_ms)] *)
Definition wait_call (maxevents timeout_ms : Z) : SysCallArgs :=
  syscall_args SYS_epoll_wait [3; 4096; maxevents; timeout_ms].

(** [epoll_wait(3, NULL, maxevents, timeout_ms)] *)
Definition wait_call_null (maxevents timeout_ms : Z) : SysCallArgs :=
  syscall_args SYS_epoll_wait [3; 0; maxevents; timeout_ms].

(** *** The reference collaborators meet the contract *)

#[refine] Global Instance reference : Collaborators := {|
  World := RefWorld;
  Descriptor := N;
  EventBuffer := EventWindow;
  host_createDescriptor := ref_createDescriptor;
  host_lookupDescriptor := ref_lookupDescriptor;
  host_getOSHandle := ref_getOSHandle;
  descriptor_addFlags := ref_addFlags;
  descriptor_getHandle := ref_getHandle;
  _syscallhandler_validateDescriptor := ref_validateDescriptor;
  _syscallhandler_wasBlocked := was_blocked;
  _syscallhandler_setListenTimeoutMillis := ref_setListenTimeoutMillis;
  process_listenForStatus := ref_listenForStatus;
  thread_getReadablePtr := ref_getReadablePtr;
  thread_getWriteablePtr := ref_getWriteablePtr;
  epoll_control := ref_control;
  epoll_controlOS := ref_controlOS;
  epoll_getNumReadyEvents := ref_getNumReadyEvents;
  epoll_getEvents := ref_getEvents
|}.
Proof.
  - (* a created epoll validates *)
    abstract (
      unfold ref_createDescriptor; intros w od w' Hcreate;
      inversion Hcreate; subst; clear Hcreate;
      exists (next_handle w); split; [reflexivity|];
      unfold ref_validateDescriptor; cbn [descriptors];
      rewrite lookup_insert_eq; reflexivity).
  - (* NULL does not validate *)
    abstract (intros w t; unfold ref_validateDescriptor, EBADF; lia).
  - (* the engine reports success *)
    abstract reflexivity.
Defined.

Global Instance reference_meets_spec : SpecContract reference.
Proof.
  split.
  - intros epoll buf n w Hn. cbn. unfold ref_getEvents, ref_getNumReadyEvents.
    cbn [fst snd]. rewrite length_take, length_map. lia.
  - intros w desc. apply N2Z.is_nonneg.
Qed.

End Reference.

(** ** The PHOLD test client

    A shallow embedding of [src/test/bmark/test_phold.c], the UDP load
    generator that drives the simulator through the epoll interface: its
    state, the parsing of its options, its message accounting, the choice
    of a peer, the start-up of its timer and listener and its clean-up.  The C
    library, glib and the kernel are an interface, [PholdOS]; the log is
    kept as the list of lines that pass the filter.  A run stops at a
    failed assertion and at a read through a NULL pointer. *)
Module PHoldTest.

(** [guint64] arithmetic wraps. *)
Definition to_guint64 (z : Z) : Z := z mod 2 ^ 64.

(** [in_addr_t] is [uint32_t]. *)
Definition to_in_addr_t (z : Z) : Z := z mod 2 ^ 32.

Definition PHOLD_MAGIC : Z := 0xABBABAAB.
Definition PHOLD_LISTEN_PORT : Z := 8998.
Definition BASE_IP_ADDR : Z := 184549376.
Definition ARGC_PEER : Z := 7.

(** Constants of glib and of the C library on x86-64 Linux. *)
Definition G_LOG_LEVEL_ERROR : Z := 4.
Definition G_LOG_LEVEL_CRITICAL : Z := 8.
Definition G_LOG_LEVEL_WARNING : Z := 16.
Definition G_LOG_LEVEL_MESSAGE : Z := 32.
Definition G_LOG_LEVEL_INFO : Z := 64.
Definition G_LOG_LEVEL_DEBUG : Z := 128.
Definition RAND_MAX : Z := 2147483647.
Definition AF_INET : Z := 2.
Definition SOCK_DGRAM : Z := 2.
Definition SOCK_NONBLOCK : Z := 2048.
Definition INADDR_ANY : Z := 0.
Definition CLOCK_MONOTONIC : Z := 1.
Definition TFD_NONBLOCK : Z := 2048.
Definition TRUE : Z := 1.
Definition FALSE : Z := 0.

(** [htonl] and [htons] on a little-endian host: the bytes in reverse. *)
Definition htonl (x : Z) : Z :=
  (x mod 256) * 16777216 + (x / 256 mod 256) * 65536 +
  (x / 65536 mod 256) * 256 + (x / 16777216 mod 256).

Definition htons (x : Z) : Z := (x mod 256) * 256 + (x / 256 mod 256).

(** The address [_phold_sendToNode] gives to the peer of index
    [peerIndex]: [htonl(1 + BASE_IP_ADDR + peerIndex)]. *)
Definition node_address (peerIndex : Z) : Z :=
  htonl (to_in_addr_t (1 + BASE_IP_ADDR + peerIndex)).

(** [struct _PHold]; a [GString*] is the string it holds, or NULL. *)
Record PHold := {
  basename : option string;
  quantity : Z;
  msgload : Z;
  cpuload : Z;
  size : Z;
  num_peers : Z;
  hostname : option string;
  listend : Z;
  epolld_in : Z;
  timerd : Z;
  sendbuf : Z;
  num_msgs_sent : Z;
  num_msgs_sent_tot : Z;
  num_bytes_sent : Z;
  num_bytes_sent_tot : Z;
  num_msgs_recv : Z;
  num_msgs_recv_tot : Z;
  num_bytes_recv : Z;
  num_bytes_recv_tot : Z;
  magic : Z
}.

Definition set_basename (v : option string) (p : PHold) : PHold :=
  {| basename := v; quantity := quantity p; msgload := msgload p;
     cpuload := cpuload p; size := size p; num_peers := num_peers p;
     hostname := hostname p; listend := listend p; epolld_in := epolld_in p;
     timerd := timerd p; sendbuf := sendbuf p;
     num_msgs_sent := num_msgs_sent p;
     num_msgs_sent_tot := num_msgs_sent_tot p;
     num_bytes_sent := num_bytes_sent p;
     num_bytes_sent_tot := num_bytes_sent_tot p;
     num_msgs_recv := num_msgs_recv p;
     num_msgs_recv_tot := num_msgs_recv_tot p;
     num_bytes_recv := num_bytes_recv p;
     num_bytes_recv_tot := num_bytes_recv_tot p; magic := magic p |}.

Definition set_quantity (v : Z) (p : PHold) : PHold :=
  {| basename := basename p; quantity := v; msgload := msgload p;
     cpuload := cpuload p; size := size p; num_peers := num_peers p;
     hostname := hostname p; listend := listend p; epolld_in := epolld_in p;
     timerd := timerd p; sendbuf := sendbuf p;
     num_msgs_sent := num_msgs_sent p;
     num_msgs_sent_tot := num_msgs_sent_tot p;
     num_bytes_sent := num_bytes_sent p;
     num_bytes_sent_tot := num_bytes_sent_tot p;
     num_msgs_recv := num_msgs_recv p;
     num_msgs_recv_tot := num_msgs_recv_tot p;
     num_bytes_recv := num_bytes_recv p;
     num_bytes_recv_tot := num_bytes_recv_tot p; magic := magic p |}.

Definition set_msgload (v : Z) (p : PHold) : PHold :=
  {| basename := basename p; quantity := quantity p; msgload := v;
     cpuload := cpuload p; size := size p; num_peers := num_peers p;
     hostname := hostname p; listend := listend p; epolld_in := epolld_in p;
     timerd := timerd p; sendbuf := sendbuf p;
     num_msgs_sent := num_msgs_sent p;
     num_msgs_sent_tot := num_msgs_sent_tot p;
     num_bytes_sent := num_bytes_sent p;
     num_bytes_sent_tot := num_bytes_sent_tot p;
     num_msgs_recv := num_msgs_recv p;
     num_msgs_recv_tot := num_msgs_recv_tot p;
     num_bytes_recv := num_bytes_recv p;
     num_bytes_recv_tot := num_bytes_recv_tot p; magic := magic p |}.

Definition set_cpuload (v : Z) (p : PHold) : PHold :=
  {| basename := basename p; quantity := quantity p; msgload := msgload p;
     cpuload := v; size := size p; num_peers := num_peers p;
     hostname := hostname p; listend := listend p; epolld_in := epolld_in p;
     timerd := timerd p; sendbuf := sendbuf p;
     num_msgs_sent := num_msgs_sent p;
     num_msgs_sent_tot := num_msgs_sent_tot p;
     num_bytes_sent := num_bytes_sent p;
     num_bytes_sent_tot := num_bytes_sent_tot p;
     num_msgs_recv := num_msgs_recv p;
     num_msgs_recv_tot := num_msgs_recv_tot p;
     num_bytes_recv := num_bytes_recv p;
     num_bytes_recv_tot := num_bytes_recv_tot p; magic := magic p |}.

Definition set_size (v : Z) (p : PHold) : PHold :=
  {| basename := basename p; quantity := quantity p; msgload := msgload p;
     cpuload := cpuload p; size := v; num_peers := num_peers p;
     hostname := hostname p; listend := listend p; epolld_in := epolld_in p;
     timerd := timerd p; sendbuf := sendbuf p;
     num_msgs_sent := num_msgs_sent p;
     num_msgs_sent_tot := num_msgs_sent_tot p;
     num_bytes_sent := num_bytes_sent p;
     num_bytes_sent_tot := num_bytes_sent_tot p;
     num_msgs_recv := num_msgs_recv p;
     num_msgs_recv_tot := num_msgs_recv_tot p;
     num_bytes_recv := num_bytes_recv p;
     num_bytes_recv_tot := num_bytes_recv_tot p; magic := magic p |}.

Definition set_num_peers (v : Z) (p : PHold) : PHold :=
  {| basename := basename p; quantity := quantity p; msgload := msgload p;
     cpuload := cpuload p; size := size p; num_peers := v;
     hostname := hostname p; listend := listend p; epolld_in := epolld_in p;
     timerd := timerd p; sendbuf := sendbuf p;
     num_msgs_sent := num_msgs_sent p;
     num_msgs_sent_tot := num_msgs_sent_tot p;
     num_bytes_sent := num_bytes_sent p;
     num_bytes_sent_tot := num_bytes_sent_tot p;
     num_msgs_recv := num_msgs_recv p;
     num_msgs_recv_tot := num_msgs_recv_tot p;
     num_bytes_recv := num_bytes_recv p;
     num_bytes_recv_tot := num_bytes_recv_tot p; magic := magic p |}.

Definition set_hostname (v : option string) (p : PHold) : PHold :=
  {| basename := basename p; quantity := quantity p; msgload := msgload p;
     cpuload := cpuload p; size := size p; num_peers := num_peers p;
     hostname := v; listend := listend p; epolld_in := epolld_in p;
     timerd := timerd p; sendbuf := sendbuf p;
     num_msgs_sent := num_msgs_sent p;
     num_msgs_sent_tot := num_msgs_sent_tot p;
     num_bytes_sent := num_bytes_sent p;
     num_bytes_sent_tot := num_bytes_sent_tot p;
     num_msgs_recv := num_msgs_recv p;
     num_msgs_recv_tot := num_msgs_recv_tot p;
     num_bytes_recv := num_bytes_recv p;
     num_bytes_recv_tot := num_bytes_recv_tot p; magic := magic p |}.

Definition set_listend (v : Z) (p : PHold) : PHold :=
  {| basename := basename p; quantity := quantity p; msgload := msgload p;
     cpuload := cpuload p; size := size p; num_peers := num_peers p;
     hostname := hostname p; listend := v; epolld_in := epolld_in p;
     timerd := timerd p; sendbuf := sendbuf p;
     num_msgs_sent := num_msgs_sent p;
     num_msgs_sent_tot := num_msgs_sent_tot p;
     num_bytes_sent := num_bytes_sent p;
     num_bytes_sent_tot := num_bytes_sent_tot p;
     num_msgs_recv := num_msgs_recv p;
     num_msgs_recv_tot := num_msgs_recv_tot p;
     num_bytes_recv := num_bytes_recv p;
     num_bytes_recv_tot := num_bytes_recv_tot p; magic := magic p |}.

Definition set_timerd (v : Z) (p : PHold) : PHold :=
  {| basename := basename p; quantity := quantity p; msgload := msgload p;
     cpuload := cpuload p; size := size p; num_peers := num_peers p;
     hostname := hostname p; listend := listend p; epolld_in := epolld_in p;
     timerd := v; sendbuf := sendbuf p; num_msgs_sent := num_msgs_sent p;
     num_msgs_sent_tot := num_msgs_sent_tot p;
     num_bytes_sent := num_bytes_sent p;
     num_bytes_sent_tot := num_bytes_sent_tot p;
     num_msgs_recv := num_msgs_recv p;
     num_msgs_recv_tot := num_msgs_recv_tot p;
     num_bytes_recv := num_bytes_recv p;
     num_bytes_recv_tot := num_bytes_recv_tot p; magic := magic p |}.

Definition set_sendbuf (v : Z) (p : PHold) : PHold :=
  {| basename := basename p; quantity := quantity p; msgload := msgload p;
     cpuload := cpuload p; size := size p; num_peers := num_peers p;
     hostname := hostname p; listend := listend p; epolld_in := epolld_in p;
     timerd := timerd p; sendbuf := v; num_msgs_sent := num_msgs_sent p;
     num_msgs_sent_tot := num_msgs_sent_tot p;
     num_bytes_sent := num_bytes_sent p;
     num_bytes_sent_tot := num_bytes_sent_tot p;
     num_msgs_recv := num_msgs_recv p;
     num_msgs_recv_tot := num_msgs_recv_tot p;
     num_bytes_recv := num_bytes_recv p;
     num_bytes_recv_tot := num_bytes_recv_tot p; magic := magic p |}.

Definition set_num_msgs_sent (v : Z) (p : PHold) : PHold :=
  {| basename := basename p; quantity := quantity p; msgload := msgload p;
     cpuload := cpuload p; size := size p; num_peers := num_peers p;
     hostname := hostname p; listend := listend p; epolld_in := epolld_in p;
     timerd := timerd p; sendbuf := sendbuf p; num_msgs_sent := v;
     num_msgs_sent_tot := num_msgs_sent_tot p;
     num_bytes_sent := num_bytes_sent p;
     num_bytes_sent_tot := num_bytes_sent_tot p;
     num_msgs_recv := num_msgs_recv p;
     num_msgs_recv_tot := num_msgs_recv_tot p;
     num_bytes_recv := num_bytes_recv p;
     num_bytes_recv_tot := num_bytes_recv_tot p; magic := magic p |}.

Definition set_num_msgs_sent_tot (v : Z) (p : PHold) : PHold :=
  {| basename := basename p; quantity := quantity p; msgload := msgload p;
     cpuload := cpuload p; size := size p; num_peers := num_peers p;
     hostname := hostname p; listend := listend p; epolld_in := epolld_in p;
     timerd := timerd p; sendbuf := sendbuf p;
     num_msgs_sent := num_msgs_sent p; num_msgs_sent_tot := v;
     num_bytes_sent := num_bytes_sent p;
     num_bytes_sent_tot := num_bytes_sent_tot p;
     num_msgs_recv := num_msgs_recv p;
     num_msgs_recv_tot := num_msgs_recv_tot p;
     num_bytes_recv := num_bytes_recv p;
     num_bytes_recv_tot := num_bytes_recv_tot p; magic := magic p |}.

Definition set_num_bytes_sent (v : Z) (p : PHold) : PHold :=
  {| basename := basename p; quantity := quantity p; msgload := msgload p;
     cpuload := cpuload p; size := size p; num_peers := num_peers p;
     hostname := hostname p; listend := listend p; epolld_in := epolld_in p;
     timerd := timerd p; sendbuf := sendbuf p;
     num_msgs_sent := num_msgs_sent p;
     num_msgs_sent_tot := num_msgs_sent_tot p; num_bytes_sent := v;
     num_bytes_sent_tot := num_bytes_sent_tot p;
     num_msgs_recv := num_msgs_recv p;
     num_msgs_recv_tot := num_msgs_recv_tot p;
     num_bytes_recv := num_bytes_recv p;
     num_bytes_recv_tot := num_bytes_recv_tot p; magic := magic p |}.

Definition set_num_bytes_sent_tot (v : Z) (p : PHold) : PHold :=
  {| basename := basename p; quantity := quantity p; msgload := msgload p;
     cpuload := cpuload p; size := size p; num_peers := num_peers p;
     hostname := hostname p; listend := listend p; epolld_in := epolld_in p;
     timerd := timerd p; sendbuf := sendbuf p;
     num_msgs_sent := num_msgs_sent p;
     num_msgs_sent_tot := num_msgs_sent_tot p;
     num_bytes_sent := num_bytes_sent p; num_bytes_sent_tot := v;
     num_msgs_recv := num_msgs_recv p;
     num_msgs_recv_tot := num_msgs_recv_tot p;
     num_bytes_recv := num_bytes_recv p;
     num_bytes_recv_tot := num_bytes_recv_tot p; magic := magic p |}.

Definition set_num_msgs_recv (v : Z) (p : PHold) : PHold :=
  {| basename := basename p; quantity := quantity p; msgload := msgload p;
     cpuload := cpuload p; size := size p; num_peers := num_peers p;
     hostname := hostname p; listend := listend p; epolld_in := epolld_in p;
     timerd := timerd p; sendbuf := sendbuf p;
     num_msgs_sent := num_msgs_sent p;
     num_msgs_sent_tot := num_msgs_sent_tot p;
     num_bytes_sent := num_bytes_sent p;
     num_bytes_sent_tot := num_bytes_sent_tot p; num_msgs_recv := v;
     num_msgs_recv_tot := num_msgs_recv_tot p;
     num_bytes_recv := num_bytes_recv p;
     num_bytes_recv_tot := num_bytes_recv_tot p; magic := magic p |}.

Definition set_num_bytes_recv (v : Z) (p : PHold) : PHold :=
  {| basename := basename p; quantity := quantity p; msgload := msgload p;
     cpuload := cpuload p; size := size p; num_peers := num_peers p;
     hostname := hostname p; listend := listend p; epolld_in := epolld_in p;
     timerd := timerd p; sendbuf := sendbuf p;
     num_msgs_sent := num_msgs_sent p;
     num_msgs_sent_tot := num_msgs_sent_tot p;
     num_bytes_sent := num_bytes_sent p;
     num_bytes_sent_tot := num_bytes_sent_tot p;
     num_msgs_recv := num_msgs_recv p;
     num_msgs_recv_tot := num_msgs_recv_tot p; num_bytes_recv := v;
     num_bytes_recv_tot := num_bytes_recv_tot p; magic := magic p |}.

Definition set_magic (v : Z) (p : PHold) : PHold :=
  {| basename := basename p; quantity := quantity p; msgload := msgload p;
     cpuload := cpuload p; size := size p; num_peers := num_peers p;
     hostname := hostname p; listend := listend p; epolld_in := epolld_in p;
     timerd := timerd p; sendbuf := sendbuf p;
     num_msgs_sent := num_msgs_sent p;
     num_msgs_sent_tot := num_msgs_sent_tot p;
     num_bytes_sent := num_bytes_sent p;
     num_bytes_sent_tot := num_bytes_sent_tot p;
     num_msgs_recv := num_msgs_recv p;
     num_msgs_recv_tot := num_msgs_recv_tot p;
     num_bytes_recv := num_bytes_recv p;
     num_bytes_recv_tot := num_bytes_recv_tot p; magic := v |}.

(** [g_new0(PHold, 1)]: every field zero. *)
Definition zero_PHold : PHold :=
  {| basename := None; quantity := 0; msgload := 0; cpuload := 0; size := 0;
     num_peers := 0; hostname := None; listend := 0; epolld_in := 0;
     timerd := 0; sendbuf := 0; num_msgs_sent := 0; num_msgs_sent_tot := 0;
     num_bytes_sent := 0; num_bytes_sent_tot := 0; num_msgs_recv := 0;
     num_msgs_recv_tot := 0; num_bytes_recv := 0; num_bytes_recv_tot := 0;
     magic := 0 |}.

Record sockaddr_in := { sin_family : Z; sin_port : Z; sin_addr : Z }.

(** A line of the log: its level, its format and the counters and
    descriptors among its arguments, in order (the time stamp, errno and
    the string arguments are not kept). *)
Record LogLine := { level : Z; format : string; numbers : list Z }.

(** The calls into the C library, glib and the kernel, as logged. *)
Inductive OsCall :=
| Os_random
| Os_gethostname
| Os_socket (domain type protocol : Z)
| Os_sendto (fd : Z) (msg : Z) (len : Z) (flags : Z) (addr : sockaddr_in)
| Os_close (fd : Z)
| Os_bind (fd : Z) (addr : sockaddr_in)
| Os_timerfd_create (clockid flags : Z)
| Os_timerfd_settime (fd flags value_sec interval_sec : Z)
| Os_g_new0 (n_bytes : Z)
| Os_memset (ptr : Z) (value : Z) (len : Z)
| Os_g_string_free (s : string)
| Os_g_free (ptr : Z)
| Os_g_new0_PHold
| Os_g_free_PHold.

(** The C library, glib and the kernel under the client.  The string
    functions are those the option parser uses: [g_strsplit token "=" 2]
    gives the first two entries of the vector, NULL when absent;
    [strcase_equal a b] is [!g_ascii_strcasecmp(a, b)];
    [g_ascii_strtoull] is taken in base 10. *)
Class PholdOS := {
  Kernel : Type;
  os_random : Kernel -> Z * Kernel;
  os_gethostname : Kernel -> (Z * string) * Kernel;
  os_socket : Z -> Z -> Z -> Kernel -> Z * Kernel;
  os_sendto : Z -> Z -> Z -> Z -> sockaddr_in -> Kernel -> Z * Kernel;
  os_close : Z -> Kernel -> Z * Kernel;
  os_bind : Z -> sockaddr_in -> Kernel -> Z * Kernel;
  os_timerfd_create : Z -> Z -> Kernel -> Z * Kernel;
  os_timerfd_settime : Z -> Z -> Z -> Z -> Kernel -> Z * Kernel;
  os_g_new0 : Z -> Kernel -> Z * Kernel;
  os_memset : Z -> Z -> Z -> Kernel -> Kernel;
  os_g_string_free : string -> Kernel -> Kernel;
  os_g_free : Z -> Kernel -> Kernel;
  g_strsplit : string -> option string * option string;
  strcase_equal : option string -> string -> bool;
  g_ascii_strtoull : option string -> Z
}.

(** [g_string_new(init)]: a fresh string holding [init], empty for NULL. *)
Definition g_string_new (init : option string) : string := default "" init.

Section Client.
Context `{OS : PholdOS}.

(** The state of a run: the one [PHold] object, the kernel, the global
    [pholdLogFilterLevel], the lines printed and the calls made. *)
Record PSt := {
  phold : PHold;
  kernel : Kernel;
  pholdLogFilterLevel : Z;
  printed : list LogLine;
  oscalls : list OsCall
}.

(** [None] is a run stopped by a failed assertion or a NULL dereference. *)
Definition P (A : Type) : Type := PSt -> option (A * PSt).

Definition pret {A} (a : A) : P A := fun st => Some (a, st).

Definition pbind {A B} (m : P A) (k : A -> P B) : P B :=
  fun st => match m st with
            | Some (a, st') => k a st'
            | None => None
            end.

Definition get_phold : P PHold := fun st => Some (phold st, st).

Definition update_phold (f : PHold -> PHold) : P unit :=
  fun st => Some (tt, {| phold := f (phold st); kernel := kernel st;
                         pholdLogFilterLevel := pholdLogFilterLevel st;
                         printed := printed st; oscalls := oscalls st |}).

Definition set_pholdLogFilterLevel (lvl : Z) : P unit :=
  fun st => Some (tt, {| phold := phold st; kernel := kernel st;
                         pholdLogFilterLevel := lvl;
                         printed := printed st; oscalls := oscalls st |}).

(** A call into the library: transforms the kernel and is logged. *)
Definition oscall {A} (c : OsCall) (f : Kernel -> A * Kernel) : P A :=
  fun st => let '(a, k') := f (kernel st) in
            Some (a, {| phold := phold st; kernel := k';
                        pholdLogFilterLevel := pholdLogFilterLevel st;
                        printed := printed st; oscalls := oscalls st ++ [c] |}).

(** A call whose result is not used. *)
Definition oscall_ (c : OsCall) (f : Kernel -> Kernel) : P unit :=
  oscall c (fun k => (tt, f k)).

(** [g_assert(expr)] *)
Definition g_assert (b : bool) : P unit :=
  fun st => if b then Some (tt, st) else None.

(** [PHOLD_ASSERT(phold)] *)
Definition PHOLD_ASSERT : P unit :=
  fun st => g_assert (magic (phold st) =? PHOLD_MAGIC) st.

(** [p->str] for a [GString* p]: a NULL pointer stops the run. *)
Definition str (p : option string) : P string :=
  fun st => match p with
            | Some s => Some (s, st)
            | None => None
            end.

(** [_phold_log]: a line above the filter level is dropped. *)
Definition _phold_log (lvl : Z) (fmt : string) (nums : list Z) : P unit :=
  fun st =>
    if pholdLogFilterLevel st <? lvl then Some (tt, st)
    else Some (tt, {| phold := phold st; kernel := kernel st;
                      pholdLogFilterLevel := pholdLogFilterLevel st;
                      printed := printed st ++
                                 [ {| level := lvl; format := fmt; numbers := nums |} ];
                      oscalls := oscalls st |}).

Definition phold_error := _phold_log G_LOG_LEVEL_ERROR.
Definition phold_warning := _phold_log G_LOG_LEVEL_WARNING.
Definition phold_info := _phold_log G_LOG_LEVEL_INFO.
Definition phold_debug := _phold_log G_LOG_LEVEL_DEBUG.

End Client.

Declare Scope phold_scope.
Delimit Scope phold_scope with phold.
Notation "x <- m ;; k" := (pbind m (fun x => k))
  (at level 100, m at next level, right associativity) : phold_scope.
Notation "m ;;; k" := (pbind m (fun _ => k))
  (at level 100, right associativity) : phold_scope.

Section Client.
Context `{OS : PholdOS}.
Local Open Scope phold_scope.

(** [(double) z] for 0 <= z < 2^63. *)
Definition double_of (z : Z) : float := PrimFloat.of_uint63 (Uint63.of_Z z).

Definition _phold_get_uniform_double : P float :=
  x <- oscall Os_random os_random ;;
  pret (PrimFloat.div (double_of x) (double_of RAND_MAX)).

(** The loop of [_phold_chooseNode], entered with [left] peers still to be
    tried from index [i] on; the value returned is an [in_addr_t]. *)
Fixpoint chooseNode_loop (left : nat) (i : Z) (cumulative normWeight r : float) : Z :=
  match left with
  | O => to_in_addr_t (-1)
  | S left' =>
      let cumulative := PrimFloat.add cumulative normWeight in
      if PrimFloat.leb r cumulative then to_in_addr_t i
      else chooseNode_loop left' (i + 1) cumulative normWeight r
  end.

Definition _phold_chooseNode : P Z :=
  PHOLD_ASSERT ;;;
  r <- _phold_get_uniform_double ;;
  p <- get_phold ;;
  let cumulative := double_of 0 in
  let normWeight := PrimFloat.div (double_of 1) (double_of (num_peers p)) in
  pret (chooseNode_loop (Z.to_nat (num_peers p)) 0 cumulative normWeight r).

Definition _phold_sendToNode (peerIndex port msg msg_len : Z) : P Z :=
  let result := 0 in
  socketd <- oscall (Os_socket AF_INET (Z.lor SOCK_DGRAM SOCK_NONBLOCK) 0)
               (os_socket AF_INET (Z.lor SOCK_DGRAM SOCK_NONBLOCK) 0) ;;
  let node := {| sin_family := AF_INET;
                 sin_port := port;
                 sin_addr := node_address peerIndex |} in
  b <- oscall (Os_sendto socketd msg msg_len 0 node)
         (os_sendto socketd msg msg_len 0 node) ;;
  result <-
    (if 0 <? b then
       update_phold (fun p => set_num_msgs_sent (to_guint64 (num_msgs_sent p + 1)) p) ;;;
       update_phold (fun p => set_num_msgs_sent_tot (to_guint64 (num_msgs_sent_tot p + 1)) p) ;;;
       update_phold (fun p => set_num_bytes_sent (to_guint64 (num_bytes_sent p + b)) p) ;;;
       update_phold (fun p => set_num_bytes_sent_tot (to_guint64 (num_bytes_sent_tot p + b)) p) ;;;
       p <- get_phold ;;
       host <- str (hostname p) ;;
       phold_debug "host '%s' sent %i byte%s to host '%s%li'"
         [to_gint b; peerIndex + 1] ;;;
       pret TRUE
     else if b <? 0 then
       p <- get_phold ;;
       host <- str (hostname p) ;;
       phold_warning "sendto(): returned %i host '%s' errno %i: %s" [to_gint b] ;;;
       pret FALSE
     else pret result) ;;
  oscall (Os_close socketd) (os_close socketd) ;;;
  pret result.

Definition _phold_sendNewMessage : P unit :=
  PHOLD_ASSERT ;;;
  peerIndex <- _phold_chooseNode ;;
  if 0 <=? peerIndex then
    let port := htons PHOLD_LISTEN_PORT in
    p <- get_phold ;;
    _phold_sendToNode peerIndex port (sendbuf p) (size p) ;;;
    pret tt
  else
    phold_warning "Unable to choose valid peer index" [].

(** The loop of [_phold_bootstrapMessages]. *)
Fixpoint sendNewMessages (n : nat) : P unit :=
  match n with
  | O => pret tt
  | S n' => _phold_sendNewMessage ;;; sendNewMessages n'
  end.

Definition _phold_bootstrapMessages : P unit :=
  p <- get_phold ;;
  phold_info "sending %lu messages to bootstrap" [msgload p] ;;;
  sendNewMessages (Z.to_nat (msgload p)).

Definition _phold_startListening : P Z :=
  PHOLD_ASSERT ;;;
  fd <- oscall (Os_socket AF_INET (Z.lor SOCK_DGRAM SOCK_NONBLOCK) 0)
          (os_socket AF_INET (Z.lor SOCK_DGRAM SOCK_NONBLOCK) 0) ;;
  update_phold (set_listend fd) ;;;
  p <- get_phold ;;
  if timerd p <? 0 then
    phold_warning "Unable to create listener socket, error %i: %s" [] ;;;
    pret (-1)
  else
    phold_info "opened listener at socket %i" [listend p] ;;;
    let bindAddr := {| sin_family := AF_INET;
                       sin_port := htons PHOLD_LISTEN_PORT;
                       sin_addr := htonl INADDR_ANY |} in
    result <- oscall (Os_bind (listend p) bindAddr) (os_bind (listend p) bindAddr) ;;
    if result <? 0 then
      phold_warning "Unable to bind listener socket, error %i: %s" [] ;;;
      pret (-1)
    else pret 0.

Definition _phold_startHeartbeatTimer : P Z :=
  PHOLD_ASSERT ;;;
  fd <- oscall (Os_timerfd_create CLOCK_MONOTONIC TFD_NONBLOCK)
          (os_timerfd_create CLOCK_MONOTONIC TFD_NONBLOCK) ;;
  update_phold (set_timerd fd) ;;;
  p <- get_phold ;;
  if timerd p <? 0 then
    phold_warning "Unable to create heartbeat timer, error %i: %s" [] ;;;
    pret (-1)
  else
    phold_info "opened timer at timerfd %i" [timerd p] ;;;
    result <- oscall (Os_timerfd_settime (timerd p) 0 1 1)
                (os_timerfd_settime (timerd p) 0 1 1) ;;
    if result <? 0 then
      phold_warning "Unable to set timeout on heartbeat timer, error %i: %s" [] ;;;
      pret (-1)
    else pret 0.

Definition _phold_logHeartbeatMessage : P unit :=
  p <- get_phold ;;
  host <- str (hostname p) ;;
  phold_info
    "%s: heartbeat: msgs_sent=%lu msgs_recv=%lu tot_msgs_sent=%lu tot_msgs_recv=%lu bytes_sent=%lu bytes_recv=%lu tot_bytes_sent=%lu tot_bytes_recv=%lu"
    [ num_msgs_sent p; num_msgs_recv p; num_msgs_sent_tot p; num_msgs_recv_tot p;
      num_bytes_sent p; num_bytes_recv p; num_bytes_sent_tot p;
      num_bytes_recv_tot p ] ;;;
  update_phold (set_num_msgs_recv 0) ;;;
  update_phold (set_num_msgs_sent 0) ;;;
  update_phold (set_num_bytes_recv 0) ;;;
  update_phold (set_num_bytes_sent 0).

(** One turn of the loop of [_phold_parseOptions] over [argv]: the option
    is taken apart at its first "=" and its key is looked for in turn; the
    result is what the turn adds to [num_params_found]. *)
Definition parseOption (token : string) : P Z :=
  let config := g_strsplit token in
  if strcase_equal (fst config) "loglevel" then
    (if strcase_equal (snd config) "debug"
     then set_pholdLogFilterLevel G_LOG_LEVEL_DEBUG
     else set_pholdLogFilterLevel G_LOG_LEVEL_INFO) ;;;
    pret 1
  else if strcase_equal (fst config) "basename" then
    update_phold (set_basename (Some (g_string_new (snd config)))) ;;;
    pret 1
  else if strcase_equal (fst config) "quantity" then
    update_phold (set_quantity (g_ascii_strtoull (snd config))) ;;;
    update_phold (fun p => set_num_peers (quantity p) p) ;;;
    pret 1
  else if strcase_equal (fst config) "msgload" then
    update_phold (set_msgload (g_ascii_strtoull (snd config))) ;;;
    pret 1
  else if strcase_equal (fst config) "cpuload" then
    update_phold (set_cpuload (g_ascii_strtoull (snd config))) ;;;
    pret 1
  else if strcase_equal (fst config) "size" then
    update_phold (set_size (g_ascii_strtoull (snd config))) ;;;
    pret 1
  else
    phold_warning "skipping unknown config option %s=%s" [] ;;;
    pret 0.

Fixpoint parseOptions_loop (tokens : list string) (num_params_found : Z) : P Z :=
  match tokens with
  | [] => pret num_params_found
  | token :: rest =>
      found <- parseOption token ;;
      parseOptions_loop rest (num_params_found + found)
  end.

(** [argv[1]] to [argv[ARGC_PEER - 1]] *)
Definition option_tokens (argv : list string) : list string :=
  map (fun i => nth i argv ""%string) (seq 1 (Z.to_nat (ARGC_PEER - 1))).

Definition _phold_parseOptions (argc : Z) (argv : option (list string)) : P Z :=
  PHOLD_ASSERT ;;;
  named <- oscall Os_gethostname os_gethostname ;;
  g_assert (fst named =? 0) ;;;
  let myname := snd named in
  num_params_found <-
    (match argv with
     | Some argv =>
         if argc =? ARGC_PEER then parseOptions_loop (option_tokens argv) 0
         else pret 0
     | None => pret 0
     end) ;;
  p <- get_phold ;;
  if bool_decide (basename p <> None) && (num_params_found =? ARGC_PEER - 1) then
    update_phold (set_hostname (Some (g_string_new (Some myname)))) ;;;
    buf <- oscall (Os_g_new0 (size p)) (os_g_new0 (size p)) ;;
    update_phold (set_sendbuf buf) ;;;
    oscall_ (Os_memset buf 666 (size p)) (os_memset buf 666 (size p)) ;;;
    name <- str (basename p) ;;
    phold_info
      "successfully parsed options for %s: basename=%s quantity=%lu msgload=%lu cpuload=%lu size=%lu"
      [quantity p; msgload p; cpuload p; size p] ;;;
    pret TRUE
  else
    phold_error "invalid argv string for node %s" [] ;;;
    phold_info "USAGE: %s" [] ;;;
    pret FALSE.

Definition _phold_free : P unit :=
  PHOLD_ASSERT ;;;
  _phold_logHeartbeatMessage ;;;
  p <- get_phold ;;
  (if 0 <? listend p
   then oscall (Os_close (listend p)) (os_close (listend p)) ;;; pret tt
   else pret tt) ;;;
  (if 0 <? epolld_in p
   then oscall (Os_close (epolld_in p)) (os_close (epolld_in p)) ;;; pret tt
   else pret tt) ;;;
  (match hostname p with
   | Some s => oscall_ (Os_g_string_free s) (os_g_string_free s)
   | None => pret tt
   end) ;;;
  (match basename p with
   | Some s => oscall_ (Os_g_string_free s) (os_g_string_free s)
   | None => pret tt
   end) ;;;
  (if negb (sendbuf p =? 0)
   then oscall_ (Os_g_free (sendbuf p)) (os_g_free (sendbuf p))
   else pret tt) ;;;
  update_phold (set_magic 0) ;;;
  oscall_ Os_g_free_PHold (fun k => k).

(** [phold_new] answers whether the pointer it returns is not NULL. *)
Definition phold_new (argc : Z) (argv : option (list string)) : P bool :=
  oscall_ Os_g_new0_PHold (fun k => k) ;;;
  update_phold (fun _ => zero_PHold) ;;;
  update_phold (set_magic PHOLD_MAGIC) ;;;
  parsed <- _phold_parseOptions argc argv ;;
  if parsed =? 0 then
    _phold_free ;;;
    pret false
  else pret true.

End Client.

(** *** Reading a run *)

Section Reading.
Context `{OS : PholdOS}.

(** The counters after a datagram of [b] bytes went out. *)
Definition count_sent (b : Z) (p : PHold) : PHold :=
  set_num_bytes_sent_tot (to_guint64 (num_bytes_sent_tot p + b))
    (set_num_bytes_sent (to_guint64 (num_bytes_sent p + b))
       (set_num_msgs_sent_tot (to_guint64 (num_msgs_sent_tot p + 1))
          (set_num_msgs_sent (to_guint64 (num_msgs_sent p + 1)) p))).

Definition is_socket (c : OsCall) : bool :=
  match c with Os_socket _ _ _ => true | _ => false end.

Definition is_sendto (c : OsCall) : bool :=
  match c with Os_sendto _ _ _ _ _ => true | _ => false end.

Definition is_close (c : OsCall) : bool :=
  match c with Os_close _ => true | _ => false end.

Definition count_calls (f : OsCall -> bool) (cs : list OsCall) : nat :=
  length (List.filter f cs).

(** The keys [_phold_parseOptions] knows, as its chain of comparisons
    finds them. *)
Definition known_option (token : string) : bool :=
  let key := fst (g_strsplit token) in
  strcase_equal key "loglevel" || strcase_equal key "basename" ||
  strcase_equal key "quantity" || strcase_equal key "msgload" ||
  strcase_equal key "cpuload" || strcase_equal key "size".

Definition names_basename (token : string) : bool :=
  let key := fst (g_strsplit token) in
  negb (strcase_equal key "loglevel") && strcase_equal key "basename".

End Reading.

(** *** A small library to run the client on *)

(** Sockets and timers are numbered from [next_fd]; [random] and [sendto]
    answer from the lists, then 0 and the whole length. *)
Record ToyKernel := { next_fd : Z; randoms : list Z; sendto_results : list Z }.

Fixpoint split_at_equals (s : string) : string * option string :=
  match s with
  | EmptyString => (EmptyString, None)
  | String c rest =>
      if Nat.eqb (Ascii.nat_of_ascii c) 61 then (EmptyString, Some rest)
      else let '(k, v) := split_at_equals rest in (String c k, v)
  end.

Definition toy_strsplit (s : string) : option string * option string :=
  match s with
  | EmptyString => (None, None)
  | _ => let '(k, v) := split_at_equals s in (Some k, v)
  end.

Definition ascii_lower (c : Ascii.ascii) : Ascii.ascii :=
  let n := Ascii.nat_of_ascii c in
  if Nat.leb 65 n && Nat.leb n 90 then Ascii.ascii_of_nat (n + 32) else c.

Fixpoint string_lower (s : string) : string :=
  match s with
  | EmptyString => EmptyString
  | String c rest => String (ascii_lower c) (string_lower rest)
  end.

Definition toy_strcase_equal (a : option string) (b : string) : bool :=
  match a with
  | Some a => String.eqb (string_lower a) (string_lower b)
  | None => true
  end.

Fixpoint leading_digits (s : string) (acc : Z) : Z :=
  match s with
  | EmptyString => acc
  | String c rest =>
      let n := Z.of_nat (Ascii.nat_of_ascii c) in
      if (48 <=? n) && (n <=? 57) then leading_digits rest (acc * 10 + (n - 48))
      else acc
  end.

Definition toy_strtoull (s : option string) : Z :=
  match s with
  | Some s => Z.min (leading_digits s 0) (2 ^ 64 - 1)
  | None => 0
  end.

Definition toy_fresh_fd (k : ToyKernel) : Z * ToyKernel :=
  (next_fd k, {| next_fd := next_fd k + 1; randoms := randoms k;
                 sendto_results := sendto_results k |}).

Global Instance toy : PholdOS := {|
  Kernel := ToyKernel;
  os_random := fun k =>
    (hd 0 (randoms k), {| next_fd := next_fd k; randoms := tl (randoms k);
                          sendto_results := sendto_results k |});
  os_gethostname := fun k => ((0, "peer1"%string), k);
  os_socket := fun _ _ _ => toy_fresh_fd;
  os_sendto := fun _ _ len _ _ k =>
    (hd len (sendto_results k),
     {| next_fd := next_fd k; randoms := randoms k;
        sendto_results := tl (sendto_results k) |});
  os_close := fun _ k => (0, k);
  os_bind := fun fd _ k => (if fd <? 0 then -1 else 0, k);
  os_timerfd_create := fun _ _ => toy_fresh_fd;
  os_timerfd_settime := fun _ _ _ _ k => (0, k);
  os_g_new0 := fun n k => (if n =? 0 then 0 else 4096, k);
  os_memset := fun _ _ _ k => k;
  os_g_string_free := fun _ k => k;
  os_g_free := fun _ k => k;
  g_strsplit := toy_strsplit;
  strcase_equal := toy_strcase_equal;
  g_ascii_strtoull := toy_strtoull
|}.

(** A client as [phold_new] leaves it for
    [loglevel=info basename=peer quantity=4 msgload=3 cpuload=0 size=64]. *)
Definition sample_PHold : PHold :=
  set_hostname (Some "peer1"%string)
    (set_sendbuf 4096
       (set_size 64
          (set_msgload 3
             (set_num_peers 4
                (set_quantity 4
                   (set_basename (Some "peer"%string)
                      (set_magic PHOLD_MAGIC zero_PHold))))))).

Definition sample_argv : list string :=
  [ "phold"; "loglevel=info"; "basename=peer"; "quantity=4"; "msgload=3";
    "cpuload=0"; "size=64" ]%string.

Definition toy_state (p : PHold) (k : ToyKernel) : PSt :=
  {| phold := p; kernel := k; pholdLogFilterLevel := G_LOG_LEVEL_INFO;
     printed := []; oscalls := [] |}.

Definition toy_kernel : ToyKernel :=
  {| next_fd := 3; randoms := [1073741823; 0; 2147483647]; sendto_results := [] |}.

(** The sample client at start, on the toy library. *)
Definition sample_start : PSt := toy_state sample_PHold toy_kernel.

(** The state [_phold_startHeartbeatTimer] leaves from [sample_start]. *)
Definition sample_timer_started : PSt :=
  Eval vm_compute in
    match _phold_startHeartbeatTimer sample_start with
    | Some (_, st) => st
    | None => sample_start
    end.

(** The state [phold_new] leaves for [sample_argv]. *)
Definition sample_new : PSt :=
  Eval vm_compute in
    match phold_new ARGC_PEER (Some sample_argv) (toy_state zero_PHold toy_kernel) with
    | Some (_, st) => st
    | None => toy_state zero_PHold toy_kernel
    end.

End PHoldTest.

(** ** Properties of the handlers *)

Section Properties.
Context `{C : Collaborators} `{SC : !SpecContract C}.

Lemma to_gint_range z : - 2 ^ 31 <= to_gint z < 2 ^ 31.
Proof.
  unfold to_gint, wrap_signed.
  pose proof (Z.mod_pos_bound (z + 2 ^ (32 - 1)) (2 ^ 32) ltac:(lia)).
  change (2 ^ (32 - 1)) with (2 ^ 31) in *. lia.
Qed.

Lemma to_guint_positive z : 0 < to_gint z -> to_guint (to_gint z) = to_gint z.
Proof.
  intros Hpos. pose proof (to_gint_range z). unfold to_guint.
  apply Z.mod_small. lia.
Qed.

(** A descriptor that validates is not NULL. *)
Lemma validated_not_null w (od : option Descriptor) t :
  _syscallhandler_validateDescriptor w od t = 0 -> exists desc, od = Some desc.
Proof.
  destruct od as [desc|]; [eauto|].
  intros Hzero. destruct (validateDescriptor_null w t Hzero).
Qed.

Ltac run :=
  unfold host_createDescriptorM, host_lookupDescriptorM, host_getOSHandleM,
    descriptor_addFlagsM, descriptor_getHandleM, validateDescriptorM,
    wasBlockedM, setListenTimeoutMillisM, process_listenForStatusM,
    thread_getReadablePtrM, thread_getWriteablePtrM, epoll_controlM,
    epoll_controlOSM, epoll_getNumReadyEventsM, epoll_getEventsM,
    utility_assert, utility_assert_ptr;
  unfold bind, query, command, ret, abort;
  cbn [world calls fst snd negb].

Ltac tidy_log := repeat rewrite <- List.app_assoc; cbn [app].

(** Entering [syscallhandler_epoll_wait] with arguments that pass the two
    checks at the top. *)
Ltac enter_wait a :=
  unfold syscallhandler_epoll_wait, wait_prologue; cbv zeta;
  destruct (Z.leb_spec (wait_maxevents a) 0) as [?|_]; [lia|];
  destruct (Z.eqb_spec (val (wait_eventsPtr a)) 0) as [?|_]; [contradiction|];
  run.

(** *** The paths of [syscallhandler_epoll_wait] *)

Lemma wait_rejects_maxevents (a : SysCallArgs) (s : St) :
  wait_maxevents a <= 0 ->
  syscallhandler_epoll_wait a s = Some (syscall_done (- EINVAL), s).
Proof.
  intros Hmax. unfold syscallhandler_epoll_wait. cbv zeta.
  destruct (Z.leb_spec (wait_maxevents a) 0) as [_|?]; [reflexivity|lia].
Qed.

Lemma wait_rejects_null (a : SysCallArgs) (s : St) :
  0 < wait_maxevents a ->
  val (wait_eventsPtr a) = 0 ->
  syscallhandler_epoll_wait a s = Some (syscall_done (- EFAULT), s).
Proof.
  intros Hmax Hptr. unfold syscallhandler_epoll_wait. cbv zeta.
  destruct (Z.leb_spec (wait_maxevents a) 0) as [?|_]; [lia|].
  rewrite Hptr. reflexivity.
Qed.

Lemma wait_rejects_descriptor (a : SysCallArgs) (s : St) :
  0 < wait_maxevents a ->
  val (wait_eventsPtr a) <> 0 ->
  let descriptor := host_lookupDescriptor (world s) (wait_epfd a) in
  let errorCode := _syscallhandler_validateDescriptor (world s) descriptor DT_EPOLL in
  errorCode <> 0 ->
  syscallhandler_epoll_wait a s =
    Some (syscall_done errorCode,
          {| world := world s;
             calls := calls s ++ [ Call_host_lookupDescriptor (wait_epfd a);
                                   Call_validateDescriptor descriptor DT_EPOLL ] |}).
Proof.
  intros Hmax Hptr descriptor errorCode Herr. subst errorCode descriptor.
  enter_wait a.
  destruct (Z.eqb_spec
    (_syscallhandler_validateDescriptor (world s)
       (host_lookupDescriptor (world s) (wait_epfd a)) DT_EPOLL) 0)
    as [?|_]; [contradiction|].
  cbn. tidy_log. reflexivity.
Qed.

Lemma wait_returns_zero (a : SysCallArgs) (s : St) (epoll : Descriptor) :
  0 < wait_maxevents a ->
  val (wait_eventsPtr a) <> 0 ->
  resolves_epoll (world s) (wait_epfd a) epoll ->
  epoll_getNumReadyEvents (world s) epoll = 0%N ->
  wait_timeout_ms a = 0 \/ _syscallhandler_wasBlocked (world s) = true ->
  syscallhandler_epoll_wait a s =
    Some (syscall_done 0,
          {| world := world s;
             calls := calls s ++ wait_prologue a epoll ++
                      (if wait_timeout_ms a =? 0 then [] else [Call_wasBlocked]) |}).
Proof.
  intros Hmax Hptr [Hlook Hvalid] Hready Hnow.
  enter_wait a. rewrite Hlook, Hvalid. cbn. rewrite Hready. cbn.
  destruct (Z.eqb_spec (wait_timeout_ms a) 0) as [_|Hne].
  - tidy_log. reflexivity.
  - destruct Hnow as [?|Hblocked]; [contradiction|].
    cbn [world calls]. rewrite Hblocked. tidy_log. reflexivity.
Qed.

Lemma wait_blocks (a : SysCallArgs) (s : St) (epoll : Descriptor) :
  0 < wait_maxevents a ->
  val (wait_eventsPtr a) <> 0 ->
  resolves_epoll (world s) (wait_epfd a) epoll ->
  epoll_getNumReadyEvents (world s) epoll = 0%N ->
  wait_timeout_ms a <> 0 ->
  _syscallhandler_wasBlocked (world s) = false ->
  let timed := 0 <? wait_timeout_ms a in
  let timer := if timed then Some sys_timer else None in
  syscallhandler_epoll_wait a s =
    Some (syscall_block,
          {| world :=
               process_listenForStatus timer epoll DS_READABLE
                 (if timed
                  then _syscallhandler_setListenTimeoutMillis (wait_timeout_ms a) (world s)
                  else world s);
             calls := calls s ++ wait_prologue a epoll ++ [Call_wasBlocked] ++
                      (if timed
                       then [Call_setListenTimeoutMillis (wait_timeout_ms a)]
                       else []) ++
                      [Call_process_listenForStatus timer epoll DS_READABLE] |}).
Proof.
  intros Hmax Hptr [Hlook Hvalid] Hready Htimeout Hfirst timed timer.
  subst timer timed.
  enter_wait a. rewrite Hlook, Hvalid. cbn. rewrite Hready. cbn.
  destruct (Z.eqb_spec (wait_timeout_ms a) 0) as [?|_]; [contradiction|].
  cbn [world calls]. rewrite Hfirst.
  destruct (0 <? wait_timeout_ms a); cbn [world calls]; tidy_log; reflexivity.
Qed.

Lemma wait_fetches (a : SysCallArgs) (s : St) (epoll : Descriptor) :
  0 < wait_maxevents a ->
  val (wait_eventsPtr a) <> 0 ->
  resolves_epoll (world s) (wait_epfd a) epoll ->
  epoll_getNumReadyEvents (world s) epoll <> 0%N ->
  let n := Z.min (wait_maxevents a) (Z.of_N (epoll_getNumReadyEvents (world s) epoll)) in
  let size := sizeof_epoll_event * n in
  let window := thread_getWriteablePtr (world s) (wait_eventsPtr a) size in
  let got := epoll_getEvents epoll window n (world s) in
  syscallhandler_epoll_wait a s =
    Some (syscall_done (snd (fst got)),
          {| world := snd got;
             calls := calls s ++ wait_prologue a epoll ++
                      [ Call_thread_getWriteablePtr (wait_eventsPtr a) size;
                        Call_epoll_getEvents epoll window n ] |}).
Proof.
  intros Hmax Hptr [Hlook Hvalid] Hready n size window got.
  pose proof (epoll_getEvents_result epoll window n (world s)) as Hres.
  enter_wait a. rewrite Hlook, Hvalid. cbn.
  destruct (Z.eqb_spec (Z.of_N (epoll_getNumReadyEvents (world s) epoll)) 0)
    as [?|_]; [lia|].
  cbn [world calls].
  replace (to_guint (wait_maxevents a)) with (wait_maxevents a)
    by (symmetry; apply to_guint_positive; exact Hmax).
  subst got window size n.
  destruct (epoll_getEvents _ _ _ _) as [[result nEvents] w2].
  cbn [fst snd] in *. subst result. cbn.
  tidy_log. reflexivity.
Qed.

(** *** The paths of [syscallhandler_epoll_ctl] *)

Ltac enter_ctl a :=
  unfold syscallhandler_epoll_ctl, ctl_prologue; cbv zeta;
  destruct (Z.eqb_spec (val (ctl_eventPtr a)) 0) as [?|_]; [contradiction|];
  destruct (Z.eqb_spec (ctl_epfd a) (ctl_fd a)) as [?|_]; [contradiction|];
  run.

Lemma ctl_rejects_null (a : SysCallArgs) (s : St) :
  val (ctl_eventPtr a) = 0 ->
  syscallhandler_epoll_ctl a s = Some (syscall_done (- EFAULT), s).
Proof.
  intros Hptr. unfold syscallhandler_epoll_ctl. cbv zeta.
  rewrite Hptr. reflexivity.
Qed.

Lemma ctl_rejects_self (a : SysCallArgs) (s : St) :
  val (ctl_eventPtr a) <> 0 ->
  ctl_epfd a = ctl_fd a ->
  syscallhandler_epoll_ctl a s = Some (syscall_done (- EINVAL), s).
Proof.
  intros Hptr Hself. unfold syscallhandler_epoll_ctl. cbv zeta.
  destruct (Z.eqb_spec (val (ctl_eventPtr a)) 0) as [?|_]; [contradiction|].
  rewrite Hself, Z.eqb_refl. reflexivity.
Qed.

Lemma ctl_rejects_descriptor (a : SysCallArgs) (s : St) :
  val (ctl_eventPtr a) <> 0 ->
  ctl_epfd a <> ctl_fd a ->
  let descriptor := host_lookupDescriptor (world s) (ctl_epfd a) in
  let errorCode := _syscallhandler_validateDescriptor (world s) descriptor DT_EPOLL in
  errorCode <> 0 ->
  syscallhandler_epoll_ctl a s =
    Some (syscall_done errorCode,
          {| world := world s;
             calls := calls s ++ [ Call_host_lookupDescriptor (ctl_epfd a);
                                   Call_validateDescriptor descriptor DT_EPOLL ] |}).
Proof.
  intros Hptr Hself descriptor errorCode Herr. subst errorCode descriptor.
  enter_ctl a.
  destruct (Z.eqb_spec
    (_syscallhandler_validateDescriptor (world s)
       (host_lookupDescriptor (world s) (ctl_epfd a)) DT_EPOLL) 0)
    as [?|_]; [contradiction|].
  cbn. tidy_log. reflexivity.
Qed.

Lemma ctl_controls_descriptor (a : SysCallArgs) (s : St) (epoll child : Descriptor) :
  val (ctl_eventPtr a) <> 0 ->
  ctl_epfd a <> ctl_fd a ->
  resolves_epoll (world s) (ctl_epfd a) epoll ->
  host_lookupDescriptor (world s) (ctl_fd a) = Some child ->
  _syscallhandler_validateDescriptor (world s) (Some child) DT_NONE = 0 ->
  let event := thread_getReadablePtr (world s) (ctl_eventPtr a) sizeof_epoll_event in
  let outcome := epoll_control epoll (ctl_op a) child event (world s) in
  syscallhandler_epoll_ctl a s =
    Some (syscall_done (fst outcome),
          {| world := snd outcome;
             calls := calls s ++ ctl_prologue a epoll (world s) ++
                      [ Call_epoll_control epoll (ctl_op a) child event ] |}).
Proof.
  intros Hptr Hself [Hlook Hvalid] Hchild Hsim event outcome.
  subst outcome event. enter_ctl a.
  rewrite Hlook, Hvalid. cbn. rewrite Hchild, Hsim. cbn.
  destruct (epoll_control _ _ _ _ _) as [errorCode w']. cbn.
  tidy_log. reflexivity.
Qed.

Lemma ctl_controls_os (a : SysCallArgs) (s : St) (epoll : Descriptor) :
  val (ctl_eventPtr a) <> 0 ->
  ctl_epfd a <> ctl_fd a ->
  resolves_epoll (world s) (ctl_epfd a) epoll ->
  _syscallhandler_validateDescriptor (world s)
    (host_lookupDescriptor (world s) (ctl_fd a)) DT_NONE <> 0 ->
  let event := thread_getReadablePtr (world s) (ctl_eventPtr a) sizeof_epoll_event in
  let mapped := host_getOSHandle (world s) (ctl_fd a) in
  let osfd := if 0 <=? mapped then mapped else ctl_fd a in
  let outcome := epoll_controlOS epoll (ctl_op a) osfd event (world s) in
  syscallhandler_epoll_ctl a s =
    Some (syscall_done (fst outcome),
          {| world := snd outcome;
             calls := calls s ++ ctl_prologue a epoll (world s) ++
                      [ Call_host_getOSHandle (ctl_fd a);
                        Call_epoll_controlOS epoll (ctl_op a) osfd event ] |}).
Proof.
  intros Hptr Hself [Hlook Hvalid] Hos event mapped osfd outcome.
  subst outcome osfd mapped event. enter_ctl a.
  rewrite Hlook, Hvalid. cbn.
  destruct (Z.eqb_spec
    (_syscallhandler_validateDescriptor (world s)
       (host_lookupDescriptor (world s) (ctl_fd a)) DT_NONE) 0)
    as [?|_]; [contradiction|].
  cbn [world calls].
  destruct (epoll_controlOS _ _ _ _ _) as [errorCode w']. cbn.
  tidy_log. reflexivity.
Qed.

(** *** The paths of [_syscallhandler_createEpollHelper] *)

Lemma create_helper_rejects (size flags : Z) (s : St) :
  size <= 0 \/ (flags <> 0 /\ flags <> EPOLL_CLOEXEC) ->
  _syscallhandler_createEpollHelper size flags s = Some (- EINVAL, s).
Proof.
  intros Hbad. unfold _syscallhandler_createEpollHelper.
  destruct (Z.leb_spec size 0) as [_|Hsize]; [reflexivity|].
  destruct Hbad as [?|[Hzero Hcloexec]]; [lia|].
  destruct (Z.eqb_spec flags 0) as [?|_]; [contradiction|].
  destruct (Z.eqb_spec flags EPOLL_CLOEXEC) as [?|_]; [contradiction|].
  reflexivity.
Qed.

Lemma create_helper_allocates (size flags : Z) (s : St) :
  0 < size ->
  flags = 0 \/ flags = EPOLL_CLOEXEC ->
  exists desc w1,
    host_createDescriptor DT_EPOLL (world s) = (Some desc, w1) /\
    let cloexec := flags =? EPOLL_CLOEXEC in
    let w2 := if cloexec then descriptor_addFlags desc EPOLL_CLOEXEC w1 else w1 in
    _syscallhandler_createEpollHelper size flags s =
      Some (descriptor_getHandle w2 desc,
            {| world := w2;
               calls := calls s ++
                        [ Call_host_createDescriptor DT_EPOLL;
                          Call_validateDescriptor (Some desc) DT_EPOLL ] ++
                        (if cloexec
                         then [Call_descriptor_addFlags desc EPOLL_CLOEXEC]
                         else []) ++
                        [ Call_descriptor_getHandle desc ] |}).
Proof.
  intros Hsize Hflags.
  destruct (host_createDescriptor DT_EPOLL (world s)) as [od w1] eqn:Hcreate.
  destruct (host_createDescriptor_epoll _ _ _ Hcreate) as (desc & -> & Hvalid).
  exists desc, w1. split; [reflexivity|]. cbv zeta.
  assert (Hguard :
    (size <=? 0) || (negb (flags =? 0) && negb (flags =? EPOLL_CLOEXEC)) = false).
  { destruct (Z.leb_spec size 0) as [?|_]; [lia|].
    destruct Hflags as [-> | ->]; reflexivity. }
  assert (Hbit : negb (Z.land flags EPOLL_CLOEXEC =? 0) = (flags =? EPOLL_CLOEXEC)).
  { destruct Hflags as [-> | ->]; reflexivity. }
  unfold _syscallhandler_createEpollHelper. rewrite Hguard, Hbit. run.
  rewrite Hcreate. cbn [world calls]. rewrite Hvalid. cbn [Z.eqb].
  destruct (flags =? EPOLL_CLOEXEC); cbn [world calls]; tidy_log; reflexivity.
Qed.

(** *** The claims about [syscallhandler_epoll_wait] *)


(** C2. A call that is re-evaluated after blocking never returns BLOCK and
    registers no wake condition, whatever its timeout: it returns DONE,
    and on a valid epoll DONE with 0 when nothing is ready and DONE with
    the events the engine delivers for min(maxevents, numReady) otherwise. *)
Theorem epoll_wait_resumed_never_blocks (a : SysCallArgs) (s : St) :
  _syscallhandler_wasBlocked (world s) = true ->
  exists r s' cs,
    syscallhandler_epoll_wait a s = Some (r, s') /\
    state r = SYSCALL_DONE /\
    calls s' = calls s ++ cs /\
    existsb registers_wake cs = false /\
    forall epoll,
      0 < wait_maxevents a ->
      val (wait_eventsPtr a) <> 0 ->
      resolves_epoll (world s) (wait_epfd a) epoll ->
      let ready := Z.of_N (epoll_getNumReadyEvents (world s) epoll) in
      let n := Z.min (wait_maxevents a) ready in
      let window :=
        thread_getWriteablePtr (world s) (wait_eventsPtr a) (sizeof_epoll_event * n) in
      let got := epoll_getEvents epoll window n (world s) in
      (ready = 0 -> retval r = 0 /\ world s' = world s) /\
      (ready <> 0 -> retval r = snd (fst got) /\ world s' = snd got).
Proof.
  intros Hblocked.
  destruct (Z_le_gt_dec (wait_maxevents a) 0) as [Hmax|Hmax].
  { exists (syscall_done (- EINVAL)), s, [].
    rewrite wait_rejects_maxevents, app_nil_r by assumption.
    do 4 (split; [reflexivity|]). intros; lia. }
  apply Z.gt_lt in Hmax.
  destruct (Z.eq_dec (val (wait_eventsPtr a)) 0) as [Hptr|Hptr].
  { exists (syscall_done (- EFAULT)), s, [].
    rewrite wait_rejects_null, app_nil_r by assumption.
    do 4 (split; [reflexivity|]). intros; contradiction. }
  destruct (Z.eq_dec
    (_syscallhandler_validateDescriptor (world s)
       (host_lookupDescriptor (world s) (wait_epfd a)) DT_EPOLL) 0)
    as [Hvalid|Hinvalid].
  2:{ eexists _, _, _. rewrite wait_rejects_descriptor by assumption.
      split; [reflexivity|]. cbn [state syscall_done world calls].
      do 3 (split; [reflexivity|]).
      intros epoll _ _ [Hlook Hok]. rewrite Hlook in Hinvalid. contradiction. }
  destruct (validated_not_null _ _ _ Hvalid) as [epoll Hlook].
  rewrite Hlook in Hvalid.
  assert (Hres : resolves_epoll (world s) (wait_epfd a) epoll) by (split; assumption).
  destruct (N.eq_dec (epoll_getNumReadyEvents (world s) epoll) 0%N) as [Hready|Hready].
  - eexists _, _, _. rewrite (wait_returns_zero a s epoll) by auto.
    split; [reflexivity|]. cbn [state syscall_done world calls retval].
    split; [reflexivity|]. split; [reflexivity|].
    split; [unfold wait_prologue; destruct (wait_timeout_ms a =? 0); reflexivity|].
    intros epoll' _ _ [Hlook' _]. rewrite Hlook in Hlook'.
    injection Hlook' as <-. cbv zeta. rewrite Hready.
    split; [intros _; split; reflexivity|intros Hne; contradiction Hne; reflexivity].
  - eexists _, _, _. rewrite (wait_fetches a s epoll) by auto.
    split; [reflexivity|]. cbn [state syscall_done world calls retval].
    split; [reflexivity|]. split; [reflexivity|]. split; [reflexivity|].
    intros epoll' _ _ [Hlook' _]. rewrite Hlook in Hlook'.
    injection Hlook' as <-. cbv zeta.
    split; [intros Hzero; lia|intros _; split; reflexivity].
Qed.

(** C3. A first attempt that passes the argument checks, on a valid epoll
    with nothing ready and a non-zero timeout, registers a listener for the epoll's own readability, with the
    handler's timer (armed with the timeout) exactly when the timeout is
    positive and with no timer when it is negative, and returns a result
    whose control state is BLOCK. *)
Theorem epoll_wait_first_attempt_blocks
    (a : SysCallArgs) (s : St) (epoll : Descriptor) :
  0 < wait_maxevents a ->
  val (wait_eventsPtr a) <> 0 ->
  resolves_epoll (world s) (wait_epfd a) epoll ->
  epoll_getNumReadyEvents (world s) epoll = 0%N ->
  wait_timeout_ms a <> 0 ->
  _syscallhandler_wasBlocked (world s) = false ->
  let timed := 0 <? wait_timeout_ms a in
  let timer := if timed then Some sys_timer else None in
  exists r,
    syscallhandler_epoll_wait a s =
      Some (r,
            {| world :=
                 process_listenForStatus timer epoll DS_READABLE
                   (if timed
                    then _syscallhandler_setListenTimeoutMillis (wait_timeout_ms a) (world s)
                    else world s);
               calls := calls s ++ wait_prologue a epoll ++ [Call_wasBlocked] ++
                        (if timed
                         then [Call_setListenTimeoutMillis (wait_timeout_ms a)]
                         else []) ++
                        [Call_process_listenForStatus timer epoll DS_READABLE] |}) /\
    state r = SYSCALL_BLOCK.
Proof.
  intros Hmax Hptr Hres Hready Htimeout Hfirst timed timer.
  exists syscall_block. split; [|reflexivity].
  exact (wait_blocks a s epoll Hmax Hptr Hres Hready Htimeout Hfirst).
Qed.


(** C5, amended. A call with maxevents <= 0 returns -EINVAL, and a call
    with maxevents > 0 and a null events pointer returns -EFAULT; in both
    cases no collaborator is called and the world is untouched. *)
Theorem epoll_wait_argument_errors (a : SysCallArgs) (s : St) :
  (wait_maxevents a <= 0 ->
     syscallhandler_epoll_wait a s = Some (syscall_done (- EINVAL), s)) /\
  (0 < wait_maxevents a -> val (wait_eventsPtr a) = 0 ->
     syscallhandler_epoll_wait a s = Some (syscall_done (- EFAULT), s)).
Proof.
  split; [apply wait_rejects_maxevents|apply wait_rejects_null].
Qed.

(** C10. The maxevents check comes first: a call with maxevents <= 0 and a
    null events pointer returns -EINVAL, which is not -EFAULT. *)
Theorem epoll_wait_maxevents_checked_first (a : SysCallArgs) (s : St) :
  wait_maxevents a <= 0 ->
  val (wait_eventsPtr a) = 0 ->
  syscallhandler_epoll_wait a s = Some (syscall_done (- EINVAL), s) /\
  syscallhandler_epoll_wait a s <> Some (syscall_done (- EFAULT), s).
Proof.
  intros Hmax _. rewrite wait_rejects_maxevents by assumption.
  split; [reflexivity|discriminate].
Qed.

(** *** The claims about [syscallhandler_epoll_ctl] *)

(** C6, amended. A call with a null event pointer returns -EFAULT whatever
    its operation and descriptors, and a call with a non-null event pointer
    and epfd equal to fd returns -EINVAL; in both cases no descriptor is
    resolved, no collaborator is called and the world is untouched. *)
Theorem epoll_ctl_argument_errors (a : SysCallArgs) (s : St) :
  (val (ctl_eventPtr a) = 0 ->
     syscallhandler_epoll_ctl a s = Some (syscall_done (- EFAULT), s)) /\
  (val (ctl_eventPtr a) <> 0 -> ctl_epfd a = ctl_fd a ->
     syscallhandler_epoll_ctl a s = Some (syscall_done (- EINVAL), s)).
Proof.
  split; [apply ctl_rejects_null|apply ctl_rejects_self].
Qed.

(** C7. A call that passes the argument checks on a valid epoll hands a
    child that validates as a simulated descriptor to [epoll_control];
    any other fd is translated by [host_getOSHandle], kept as it is when
    the translation is negative, and handed to [epoll_controlOS].  The
    engine's answer is the result. *)
Theorem epoll_ctl_dispatch (a : SysCallArgs) (s : St) (epoll : Descriptor) :
  val (ctl_eventPtr a) <> 0 ->
  ctl_epfd a <> ctl_fd a ->
  resolves_epoll (world s) (ctl_epfd a) epoll ->
  let w := world s in
  let descriptor := host_lookupDescriptor w (ctl_fd a) in
  let event := thread_getReadablePtr w (ctl_eventPtr a) sizeof_epoll_event in
  (_syscallhandler_validateDescriptor w descriptor DT_NONE = 0 ->
     exists child,
       descriptor = Some child /\
       let outcome := epoll_control epoll (ctl_op a) child event w in
       syscallhandler_epoll_ctl a s =
         Some (syscall_done (fst outcome),
               {| world := snd outcome;
                  calls := calls s ++ ctl_prologue a epoll w ++
                           [ Call_epoll_control epoll (ctl_op a) child event ] |})) /\
  (_syscallhandler_validateDescriptor w descriptor DT_NONE <> 0 ->
     let mapped := host_getOSHandle w (ctl_fd a) in
     let osfd := if 0 <=? mapped then mapped else ctl_fd a in
     let outcome := epoll_controlOS epoll (ctl_op a) osfd event w in
     syscallhandler_epoll_ctl a s =
       Some (syscall_done (fst outcome),
             {| world := snd outcome;
                calls := calls s ++ ctl_prologue a epoll w ++
                         [ Call_host_getOSHandle (ctl_fd a);
                           Call_epoll_controlOS epoll (ctl_op a) osfd event ] |})).
Proof.
  intros Hptr Hself Hres w descriptor event. subst event descriptor w. split.
  - intros Hsim. destruct (validated_not_null _ _ _ Hsim) as [child Hchild].
    exists child. split; [assumption|]. rewrite Hchild in Hsim.
    apply ctl_controls_descriptor; assumption.
  - intros Hos. apply ctl_controls_os; assumption.
Qed.

Lemma epoll_ctl_done (a : SysCallArgs) (s : St) :
  exists r s', syscallhandler_epoll_ctl a s = Some (r, s') /\ state r = SYSCALL_DONE.
Proof.
  destruct (Z.eq_dec (val (ctl_eventPtr a)) 0) as [Hptr|Hptr].
  { eexists _, _. rewrite ctl_rejects_null by assumption. split; reflexivity. }
  destruct (Z.eq_dec (ctl_epfd a) (ctl_fd a)) as [Hself|Hself].
  { eexists _, _. rewrite ctl_rejects_self by assumption. split; reflexivity. }
  destruct (Z.eq_dec
    (_syscallhandler_validateDescriptor (world s)
       (host_lookupDescriptor (world s) (ctl_epfd a)) DT_EPOLL) 0)
    as [Hvalid|Hinvalid].
  2:{ eexists _, _. rewrite ctl_rejects_descriptor by assumption.
      split; reflexivity. }
  destruct (validated_not_null _ _ _ Hvalid) as [epoll Hlook].
  rewrite Hlook in Hvalid.
  assert (Hres : resolves_epoll (world s) (ctl_epfd a) epoll) by (split; assumption).
  destruct (Z.eq_dec
    (_syscallhandler_validateDescriptor (world s)
       (host_lookupDescriptor (world s) (ctl_fd a)) DT_NONE) 0)
    as [Hsim|Hos].
  - destruct (validated_not_null _ _ _ Hsim) as [child Hchild].
    rewrite Hchild in Hsim.
    eexists _, _. rewrite (ctl_controls_descriptor a s epoll child) by assumption.
    split; reflexivity.
  - eexists _, _. rewrite (ctl_controls_os a s epoll) by assumption.
    split; reflexivity.
Qed.

(** *** The claims about the creation path *)



Lemma create_helper_returns (size flags : Z) (s : St) :
  exists r s', _syscallhandler_createEpollHelper size flags s = Some (r, s').
Proof.
  destruct (Z_le_gt_dec size 0) as [Hsize|Hsize].
  { eexists _, _. apply create_helper_rejects. left. exact Hsize. }
  destruct (Z.eq_dec flags 0) as [Hzero|Hzero].
  { destruct (create_helper_allocates size flags s) as (desc & w1 & _ & Hrun);
      [lia|tauto|]. eexists _, _. exact Hrun. }
  destruct (Z.eq_dec flags EPOLL_CLOEXEC) as [Hcloexec|Hcloexec].
  { destruct (create_helper_allocates size flags s) as (desc & w1 & _ & Hrun);
      [lia|tauto|]. eexists _, _. exact Hrun. }
  eexists _, _. apply create_helper_rejects. right. split; assumption.
Qed.

Lemma epoll_create_done (a : SysCallArgs) (s : St) :
  exists r s', syscallhandler_epoll_create a s = Some (r, s') /\ state r = SYSCALL_DONE.
Proof.
  destruct (create_helper_returns (create_size a) 0 s) as (r & s' & Hrun).
  exists (syscall_done r), s'. unfold syscallhandler_epoll_create, bind, ret.
  cbv zeta. rewrite Hrun. split; reflexivity.
Qed.

Lemma epoll_create1_done (a : SysCallArgs) (s : St) :
  exists r s', syscallhandler_epoll_create1 a s = Some (r, s') /\ state r = SYSCALL_DONE.
Proof.
  destruct (create_helper_returns 1 (create1_flags a) s) as (r & s' & Hrun).
  exists (syscall_done r), s'. unfold syscallhandler_epoll_create1, bind, ret.
  cbv zeta. rewrite Hrun. split; reflexivity.
Qed.

(** ** Further properties of the handlers *)

(** *** Registers read as 32-bit ints *)

Lemma arg_gint_low (a : SysCallArgs) (i : nat) :
  arg_gint a i = wrap_signed 32 (args a i).
Proof.
  unfold arg_gint, to_gint, as_i64, wrap_signed.
  replace (2 ^ (64 - 1)) with 9223372036854775808 by reflexivity.
  replace (2 ^ 64) with 18446744073709551616 by reflexivity.
  replace (2 ^ (32 - 1)) with 2147483648 by reflexivity.
  replace (2 ^ 32) with 4294967296 by reflexivity.
  f_equal.
  pose proof (Z.div_mod (args a i + 9223372036854775808) 18446744073709551616
                ltac:(lia)) as Hdiv.
  replace ((args a i + 9223372036854775808) mod 18446744073709551616
           - 9223372036854775808 + 2147483648)
    with (args a i + 2147483648
          + (- ((args a i + 9223372036854775808) / 18446744073709551616)
             * 4294967296) * 4294967296) by lia.
  apply Z_mod_plus_full.
Qed.

Lemma arg_gint_congruent (a : SysCallArgs) (i j : nat) :
  args a i mod 2 ^ 32 = args a j mod 2 ^ 32 -> arg_gint a i = arg_gint a j.
Proof.
  intros Hlow. rewrite !arg_gint_low. unfold wrap_signed. f_equal.
  rewrite <- (Zplus_mod_idemp_l (args a i)), <- (Zplus_mod_idemp_l (args a j)).
  rewrite Hlow. reflexivity.
Qed.

Lemma arg_gint_cases (a : SysCallArgs) (i : nat) :
  let low := args a i mod 2 ^ 32 in
  (low < 2 ^ 31 -> arg_gint a i = low) /\
  (2 ^ 31 <= low -> arg_gint a i = low - 2 ^ 32).
Proof.
  cbv zeta. rewrite arg_gint_low. unfold wrap_signed.
  replace (2 ^ (32 - 1)) with 2147483648 by reflexivity.
  replace (2 ^ 31) with 2147483648 by reflexivity.
  replace (2 ^ 32) with 4294967296 by reflexivity.
  pose proof (Z.mod_pos_bound (args a i) 4294967296 ltac:(lia)) as Hlow.
  rewrite <- (Zplus_mod_idemp_l (args a i)).
  split; intros Hcase.
  - rewrite Z.mod_small by lia. lia.
  - replace (args a i mod 4294967296 + 2147483648)
      with (args a i mod 4294967296 - 2147483648 + 1 * 4294967296) by lia.
    rewrite Z_mod_plus_full, Z.mod_small by lia. lia.
Qed.

(** X7. [epoll_ctl] compares epfd and fd as 32-bit ints: registers that
    agree on their low 32 bits name the same descriptor, and the call is
    rejected with -EINVAL before any descriptor is resolved. *)
Theorem epoll_ctl_compares_low_words (a : SysCallArgs) (s : St) :
  val (ctl_eventPtr a) <> 0 ->
  args a 0 mod 2 ^ 32 = args a 2 mod 2 ^ 32 ->
  syscallhandler_epoll_ctl a s = Some (syscall_done (- EINVAL), s).
Proof.
  intros Hptr Hlow. apply ctl_rejects_self; [exact Hptr|].
  unfold ctl_epfd, ctl_fd. apply arg_gint_congruent. exact Hlow.
Qed.

(** X8. [epoll_wait] reads maxevents as a 32-bit int: a register whose low
    word is zero or has bit 31 set is rejected with -EINVAL whatever its
    upper half, and any other register gives the capacity of its low
    word. *)
Theorem epoll_wait_maxevents_low_word (a : SysCallArgs) (s : St) :
  let low := args a 2 mod 2 ^ 32 in
  (low = 0 \/ 2 ^ 31 <= low ->
     syscallhandler_epoll_wait a s = Some (syscall_done (- EINVAL), s)) /\
  (0 < low < 2 ^ 31 -> wait_maxevents a = low).
Proof.
  cbv zeta. destruct (arg_gint_cases a 2) as [Hsmall Hlarge].
  cbv zeta in Hsmall, Hlarge.
  pose proof (Z.mod_pos_bound (args a 2) (2 ^ 32) ltac:(lia)) as Hlow.
  replace (2 ^ 31) with 2147483648 in * by reflexivity.
  replace (2 ^ 32) with 4294967296 in * by reflexivity.
  split.
  - intros Hbad. apply wait_rejects_maxevents. unfold wait_maxevents.
    destruct Hbad as [Hzero|Hneg].
    + rewrite Hsmall by lia. lia.
    + rewrite Hlarge by lia. lia.
  - intros Hgood. unfold wait_maxevents. apply Hsmall. lia.
Qed.

(** *** Handles that are not an epoll *)

(** X1. [epoll_wait] on a handle that does not validate as an epoll returns
    the validation error after the lookup and the validation only: the
    engine is not asked, nothing is registered and the world is as it
    was. *)
Theorem epoll_wait_invalid_epoll (a : SysCallArgs) (s : St) :
  0 < wait_maxevents a ->
  val (wait_eventsPtr a) <> 0 ->
  let descriptor := host_lookupDescriptor (world s) (wait_epfd a) in
  let errorCode := _syscallhandler_validateDescriptor (world s) descriptor DT_EPOLL in
  errorCode <> 0 ->
  syscallhandler_epoll_wait a s =
    Some (syscall_done errorCode,
          {| world := world s;
             calls := calls s ++ [ Call_host_lookupDescriptor (wait_epfd a);
                                   Call_validateDescriptor descriptor DT_EPOLL ] |}).
Proof. apply wait_rejects_descriptor. Qed.

(** X2. [epoll_ctl] on an epfd that does not validate as an epoll returns
    the validation error after the lookup and the validation of epfd only:
    the child is not looked up, the event is not read, the engine is not
    called and the world is as it was. *)
Theorem epoll_ctl_invalid_epoll (a : SysCallArgs) (s : St) :
  val (ctl_eventPtr a) <> 0 ->
  ctl_epfd a <> ctl_fd a ->
  let descriptor := host_lookupDescriptor (world s) (ctl_epfd a) in
  let errorCode := _syscallhandler_validateDescriptor (world s) descriptor DT_EPOLL in
  errorCode <> 0 ->
  syscallhandler_epoll_ctl a s =
    Some (syscall_done errorCode,
          {| world := world s;
             calls := calls s ++ [ Call_host_lookupDescriptor (ctl_epfd a);
                                   Call_validateDescriptor descriptor DT_EPOLL ] |}).
Proof. apply ctl_rejects_descriptor. Qed.

(** *** When [epoll_wait] blocks, and what it answers *)

(** The cases of a call that passes the argument checks. *)
Lemma wait_resolution (a : SysCallArgs) (s : St) :
  _syscallhandler_validateDescriptor (world s)
    (host_lookupDescriptor (world s) (wait_epfd a)) DT_EPOLL <> 0 \/
  exists epoll, resolves_epoll (world s) (wait_epfd a) epoll.
Proof.
  destruct (Z.eq_dec
    (_syscallhandler_validateDescriptor (world s)
       (host_lookupDescriptor (world s) (wait_epfd a)) DT_EPOLL) 0)
    as [Hvalid|Hinvalid]; [right|left; exact Hinvalid].
  destruct (validated_not_null _ _ _ Hvalid) as [epoll Hlook].
  rewrite Hlook in Hvalid. exists epoll. split; assumption.
Qed.

Lemma resolves_epoll_unique w epfd (e1 e2 : Descriptor) :
  resolves_epoll w epfd e1 -> resolves_epoll w epfd e2 -> e1 = e2.
Proof. intros [H1 _] [H2 _]. congruence. Qed.

(** X3. [epoll_wait] always returns, and it returns BLOCK exactly when the
    arguments pass the checks, the handle is a valid epoll, nothing is
    ready, the timeout is not zero and the call was not blocked before. *)
Theorem epoll_wait_blocks_exactly_when (a : SysCallArgs) (s : St) :
  exists r s',
    syscallhandler_epoll_wait a s = Some (r, s') /\
    (state r = SYSCALL_BLOCK <->
       0 < wait_maxevents a /\
       val (wait_eventsPtr a) <> 0 /\
       exists epoll,
         resolves_epoll (world s) (wait_epfd a) epoll /\
         epoll_getNumReadyEvents (world s) epoll = 0%N /\
         wait_timeout_ms a <> 0 /\
         _syscallhandler_wasBlocked (world s) = false).
Proof.
  destruct (Z_le_gt_dec (wait_maxevents a) 0) as [Hmax|Hmax].
  { eexists _, _. rewrite wait_rejects_maxevents by assumption.
    split; [reflexivity|]. cbn. split; [discriminate|]. intros [? _]. lia. }
  apply Z.gt_lt in Hmax.
  destruct (Z.eq_dec (val (wait_eventsPtr a)) 0) as [Hptr|Hptr].
  { eexists _, _. rewrite wait_rejects_null by assumption.
    split; [reflexivity|]. cbn. split; [discriminate|]. intros (_ & ? & _).
    contradiction. }
  destruct (wait_resolution a s) as [Hinvalid|[epoll Hres]].
  { eexists _, _. rewrite wait_rejects_descriptor by assumption.
    split; [reflexivity|]. cbn. split; [discriminate|].
    intros (_ & _ & epoll & [Hlook Hvalid] & _).
    rewrite Hlook in Hinvalid. contradiction. }
  destruct (N.eq_dec (epoll_getNumReadyEvents (world s) epoll) 0%N) as [Hready|Hready].
  2:{ eexists _, _. rewrite (wait_fetches a s epoll) by assumption.
      split; [reflexivity|]. cbn. split; [discriminate|].
      intros (_ & _ & epoll' & Hres' & Hzero & _).
      rewrite (resolves_epoll_unique _ _ _ _ Hres Hres') in Hready.
      contradiction. }
  destruct (Z.eq_dec (wait_timeout_ms a) 0) as [Hnow|Hlater].
  { eexists _, _. rewrite (wait_returns_zero a s epoll) by auto.
    split; [reflexivity|]. cbn. split; [discriminate|].
    intros (_ & _ & _ & _ & _ & ? & _). contradiction. }
  destruct (_syscallhandler_wasBlocked (world s)) eqn:Hblocked.
  { eexists _, _. rewrite (wait_returns_zero a s epoll) by auto.
    split; [reflexivity|]. cbn. split; [discriminate|].
    intros (_ & _ & _ & _ & _ & _ & ?). discriminate. }
  eexists _, _. rewrite (wait_blocks a s epoll) by assumption.
  split; [reflexivity|]. cbn. split; [intros _|reflexivity].
  split; [assumption|]. split; [assumption|]. exists epoll. auto.
Qed.

(** X4. Whenever [epoll_wait] asks for a write window, it is at the events
    pointer of the call and holds a whole number n of event records with
    1 <= n <= maxevents and n no more than the ready events; its size in
    bytes stays below 2^35, far from the range of [size_t]. *)
Theorem epoll_wait_window_is_bounded (a : SysCallArgs) (s : St) :
  forall r s' cs ptr size,
    syscallhandler_epoll_wait a s = Some (r, s') ->
    calls s' = calls s ++ cs ->
    In (Call_thread_getWriteablePtr ptr size) cs ->
    ptr = wait_eventsPtr a /\
    exists (epoll : Descriptor) (n : Z),
      resolves_epoll (world s) (wait_epfd a) epoll /\
      size = sizeof_epoll_event * n /\
      1 <= n <= wait_maxevents a /\
      n <= Z.of_N (epoll_getNumReadyEvents (world s) epoll) /\
      size < 2 ^ 35.
Proof.
  intros r s' cs ptr size Hrun Hlog Hin.
  assert (Hnone : forall s0, s' = s0 -> calls s0 = calls s ++ [] -> False).
  { intros s0 -> Hs0. rewrite Hs0 in Hlog. apply app_inv_head in Hlog.
    subst cs. destruct Hin. }
  destruct (Z_le_gt_dec (wait_maxevents a) 0) as [Hmax|Hmax].
  { rewrite wait_rejects_maxevents in Hrun by assumption.
    injection Hrun as _ <-. destruct (Hnone s eq_refl).
    symmetry. apply app_nil_r. }
  apply Z.gt_lt in Hmax.
  destruct (Z.eq_dec (val (wait_eventsPtr a)) 0) as [Hptr|Hptr].
  { rewrite wait_rejects_null in Hrun by assumption.
    injection Hrun as _ <-. destruct (Hnone s eq_refl).
    symmetry. apply app_nil_r. }
  clear Hnone.
  destruct (wait_resolution a s) as [Hinvalid|[epoll Hres]].
  { rewrite wait_rejects_descriptor in Hrun by assumption.
    injection Hrun as _ <-. cbn [calls] in Hlog. apply app_inv_head in Hlog.
    subst cs. cbn in Hin. intuition discriminate. }
  destruct (N.eq_dec (epoll_getNumReadyEvents (world s) epoll) 0%N) as [Hready|Hready].
  - destruct (Z.eq_dec (wait_timeout_ms a) 0) as [Hnow|Hlater];
      [|destruct (_syscallhandler_wasBlocked (world s)) eqn:Hblocked].
    + rewrite (wait_returns_zero a s epoll) in Hrun by auto.
      injection Hrun as _ <-. cbn [calls] in Hlog. apply app_inv_head in Hlog.
      subst cs. unfold wait_prologue in Hin.
      destruct (wait_timeout_ms a =? 0); cbn in Hin; intuition discriminate.
    + rewrite (wait_returns_zero a s epoll) in Hrun by auto.
      injection Hrun as _ <-. cbn [calls] in Hlog. apply app_inv_head in Hlog.
      subst cs. unfold wait_prologue in Hin.
      destruct (wait_timeout_ms a =? 0); cbn in Hin; intuition discriminate.
    + rewrite (wait_blocks a s epoll) in Hrun by assumption.
      injection Hrun as _ <-. cbn [calls] in Hlog. apply app_inv_head in Hlog.
      subst cs. unfold wait_prologue in Hin.
      destruct (0 <? wait_timeout_ms a); cbn in Hin; intuition discriminate.
  - rewrite (wait_fetches a s epoll) in Hrun by assumption.
    injection Hrun as _ <-. cbn [calls] in Hlog. apply app_inv_head in Hlog.
    subst cs. unfold wait_prologue in Hin. cbn in Hin.
    destruct Hin as [Hin|[Hin|[Hin|[Hin|[Hin|[]]]]]]; try discriminate.
    injection Hin as <- <-. split; [reflexivity|].
    exists epoll,
      (Z.min (wait_maxevents a) (Z.of_N (epoll_getNumReadyEvents (world s) epoll))).
    split; [exact Hres|]. split; [reflexivity|].
    pose proof (to_gint_range (as_i64 (args a 2))) as Hint.
    fold (arg_gint a 2) in Hint. fold (wait_maxevents a) in Hint.
    replace (2 ^ 31) with 2147483648 in Hint by reflexivity.
    replace (2 ^ 35) with 34359738368 by reflexivity.
    unfold sizeof_epoll_event. lia.
Qed.

(** X5. When an event is ready the timeout plays no part: two calls that
    differ only in their timeout run alike, and the blocked flag is not
    even consulted. *)
Theorem epoll_wait_ready_ignores_timeout
    (a a' : SysCallArgs) (s : St) (epoll : Descriptor) :
  wait_epfd a' = wait_epfd a ->
  wait_eventsPtr a' = wait_eventsPtr a ->
  wait_maxevents a' = wait_maxevents a ->
  0 < wait_maxevents a ->
  val (wait_eventsPtr a) <> 0 ->
  resolves_epoll (world s) (wait_epfd a) epoll ->
  epoll_getNumReadyEvents (world s) epoll <> 0%N ->
  syscallhandler_epoll_wait a' s = syscallhandler_epoll_wait a s /\
  forall r s', syscallhandler_epoll_wait a s = Some (r, s') ->
    exists cs, calls s' = calls s ++ cs /\ ~ In Call_wasBlocked cs.
Proof.
  intros Hepfd Hevents Hmaxevents Hmax Hptr Hres Hready. split.
  - rewrite (wait_fetches a s epoll) by assumption.
    rewrite (wait_fetches a' s epoll)
      by (rewrite ?Hepfd, ?Hevents, ?Hmaxevents; assumption).
    unfold wait_prologue. rewrite Hepfd, Hevents, Hmaxevents. reflexivity.
  - intros r s' Hrun. rewrite (wait_fetches a s epoll) in Hrun by assumption.
    injection Hrun as _ <-. eexists. split; [reflexivity|].
    unfold wait_prologue. cbn. intros Hin.
    repeat (destruct Hin as [Hin|Hin]; [discriminate|]). exact Hin.
Qed.

(** X9. [epoll_wait] changes the world only to block or to deliver: a run
    that neither returns BLOCK nor finds a ready event on a valid epoll
    returns DONE with the world untouched and no wake condition
    registered. *)
Theorem epoll_wait_changes_world_only_to_block_or_deliver
    (a : SysCallArgs) (s : St) :
  exists r s',
    syscallhandler_epoll_wait a s = Some (r, s') /\
    (state r = SYSCALL_BLOCK \/
     (exists epoll,
        resolves_epoll (world s) (wait_epfd a) epoll /\
        epoll_getNumReadyEvents (world s) epoll <> 0%N) \/
     (state r = SYSCALL_DONE /\
      world s' = world s /\
      exists cs, calls s' = calls s ++ cs /\ existsb registers_wake cs = false)).
Proof.
  destruct (Z_le_gt_dec (wait_maxevents a) 0) as [Hmax|Hmax].
  { eexists _, _. rewrite wait_rejects_maxevents by assumption.
    split; [reflexivity|]. right; right. do 2 (split; [reflexivity|]).
    exists []. rewrite app_nil_r. split; reflexivity. }
  apply Z.gt_lt in Hmax.
  destruct (Z.eq_dec (val (wait_eventsPtr a)) 0) as [Hptr|Hptr].
  { eexists _, _. rewrite wait_rejects_null by assumption.
    split; [reflexivity|]. right; right. do 2 (split; [reflexivity|]).
    exists []. rewrite app_nil_r. split; reflexivity. }
  destruct (wait_resolution a s) as [Hinvalid|[epoll Hres]].
  { eexists _, _. rewrite wait_rejects_descriptor by assumption.
    split; [reflexivity|]. right; right. do 2 (split; [reflexivity|]).
    eexists. split; reflexivity. }
  destruct (N.eq_dec (epoll_getNumReadyEvents (world s) epoll) 0%N) as [Hready|Hready].
  2:{ eexists _, _. rewrite (wait_fetches a s epoll) by assumption.
      split; [reflexivity|]. right; left. exists epoll. split; assumption. }
  destruct (Z.eq_dec (wait_timeout_ms a) 0) as [Hnow|Hlater];
    [|destruct (_syscallhandler_wasBlocked (world s)) eqn:Hblocked].
  - eexists _, _. rewrite (wait_returns_zero a s epoll) by auto.
    split; [reflexivity|]. right; right. do 2 (split; [reflexivity|]).
    eexists. split; [reflexivity|].
    unfold wait_prologue. destruct (wait_timeout_ms a =? 0); reflexivity.
  - eexists _, _. rewrite (wait_returns_zero a s epoll) by auto.
    split; [reflexivity|]. right; right. do 2 (split; [reflexivity|]).
    eexists. split; [reflexivity|].
    unfold wait_prologue. destruct (wait_timeout_ms a =? 0); reflexivity.
  - eexists _, _. rewrite (wait_blocks a s epoll) by assumption.
    split; [reflexivity|]. left. reflexivity.
Qed.

(** *** Creation *)

(** X6. [epoll_create] with any positive size runs exactly as
    [epoll_create1] with no flags. *)
Theorem epoll_create_is_create1_without_flags (a a' : SysCallArgs) (s : St) :
  0 < create_size a ->
  create1_flags a' = 0 ->
  syscallhandler_epoll_create a s = syscallhandler_epoll_create1 a' s.
Proof.
  intros Hsize Hflags.
  unfold syscallhandler_epoll_create, syscallhandler_epoll_create1. cbv zeta.
  rewrite Hflags. unfold bind, _syscallhandler_createEpollHelper.
  destruct (Z.leb_spec (create_size a) 0) as [?|_]; [lia|]. reflexivity.
Qed.

End Properties.

(** ** The handlers at work in the reference world *)

Section Scenarios.
Import Reference.

Local Abbreviation fresh w := (start (C := reference) w).

Ltac evaluate := vm_compute; first [reflexivity | discriminate | tauto].

(** *** Sample runs *)

(** An infinite wait blocks without a timer. *)
Example wait_forever_has_no_timer :
  let run := syscallhandler_epoll_wait (wait_call 10 (-1)) (fresh idle) in
  answer run = Some syscall_block /\
  trace run = [ Call_host_lookupDescriptor 3;
                Call_validateDescriptor (Some 3%N) DT_EPOLL;
                Call_epoll_getNumReadyEvents 3%N;
                Call_wasBlocked;
                Call_process_listenForStatus None 3%N DS_READABLE ] /\
  (listeners <$> outcome run) = Some [ (None, 3%N, DS_READABLE) ] /\
  (listen_timeout <$> outcome run) = Some None.
Proof. cbv zeta. repeat split; reflexivity. Qed.

(** The scenario of section 8: socket 4, watched for input with token 42,
    is readable; the wait delivers that one event. *)
Example wait_delivers_the_token :
  let run := syscallhandler_epoll_wait (wait_call 10 (-1)) (fresh readable) in
  answer run = Some (syscall_done 1) /\
  (written <$> outcome run) =
    Some [ ({| win_ptr := {| val := 4096 |}; win_size := 12 |},
            [ {| events := EPOLLIN; data := 42 |} ]) ].
Proof. cbv zeta. repeat split; reflexivity. Qed.

(** [maxevents] is read as a 32-bit int: 2^32 is 0 there. *)
Example wait_maxevents_is_truncated :
  answer (syscallhandler_epoll_wait (wait_call (2 ^ 32) 0) (fresh readable)) =
    Some (syscall_done (- EINVAL)).
Proof. reflexivity. Qed.

(** A closed or unknown epoll handle is answered with the validation
    error. *)
Example wait_on_a_socket_is_rejected :
  answer (syscallhandler_epoll_wait
            (syscall_args SYS_epoll_wait [4; 4096; 10; 0]) (fresh idle)) =
    Some (syscall_done (- EINVAL)) /\
  answer (syscallhandler_epoll_wait
            (syscall_args SYS_epoll_wait [8; 4096; 10; 0]) (fresh idle)) =
    Some (syscall_done (- EBADF)).
Proof. cbv zeta. repeat split; reflexivity. Qed.

(** Descriptor 9 is neither simulated nor mapped: the raw number goes to
    the OS side of the engine. *)
Example ctl_unmapped_fd_is_passed_raw :
  let run := syscallhandler_epoll_ctl (ctl_call 3 CTL_ADD 9 4096) (fresh idle) in
  answer run = Some (syscall_done 0) /\
  last (trace run) =
    Some (Call_epoll_controlOS 3%N CTL_ADD 9 {| events := EPOLLIN; data := 42 |}) /\
  ((fun w => watch_table w 3%N) <$> outcome run) =
    Some [ {| child := SimChild 4; interest := EPOLLIN; token := 42 |};
           {| child := OSChild 9; interest := EPOLLIN; token := 42 |} ].
Proof. cbv zeta. repeat split; reflexivity. Qed.

(** Adding a watched child again is the engine's EEXIST. *)
Example ctl_add_twice :
  answer (syscallhandler_epoll_ctl (ctl_call 3 CTL_ADD 4 4096) (fresh idle)) =
    Some (syscall_done (- EEXIST)).
Proof. reflexivity. Qed.

(** [epoll_create1(EPOLL_CLOEXEC)] hands out handle 5 and flags it. *)
Example create1_cloexec :
  let run := syscallhandler_epoll_create1 (create1_call EPOLL_CLOEXEC) (fresh idle) in
  answer run = Some (syscall_done 5) /\
  ((fun w => d_flags <$> descriptors w !! 5%N) <$> outcome run) =
    Some (Some EPOLL_CLOEXEC).
Proof. cbv zeta. repeat split; reflexivity. Qed.

Example create_rejects_size_zero :
  syscallhandler_epoll_create (create_call 0) (fresh idle) =
    Some (syscall_done (- EINVAL), fresh idle).
Proof. reflexivity. Qed.

(** *** The claims at concrete calls *)


Lemma epoll_wait_resumed_never_blocks_witness :
  exists r s' cs,
    syscallhandler_epoll_wait (wait_call 10 (-1)) (fresh idle_resumed) = Some (r, s') /\
    state r = SYSCALL_DONE /\
    calls s' = [] ++ cs /\
    existsb registers_wake cs = false /\
    forall epoll,
      0 < wait_maxevents (wait_call 10 (-1)) ->
      val (wait_eventsPtr (wait_call 10 (-1))) <> 0 ->
      resolves_epoll idle_resumed (wait_epfd (wait_call 10 (-1))) epoll ->
      let ready := Z.of_N (epoll_getNumReadyEvents idle_resumed epoll) in
      let n := Z.min (wait_maxevents (wait_call 10 (-1))) ready in
      let window :=
        thread_getWriteablePtr idle_resumed (wait_eventsPtr (wait_call 10 (-1)))
          (sizeof_epoll_event * n) in
      let got := epoll_getEvents epoll window n idle_resumed in
      (ready = 0 -> retval r = 0 /\ world s' = idle_resumed) /\
      (ready <> 0 -> retval r = snd (fst got) /\ world s' = snd got).
Proof.
  apply (epoll_wait_resumed_never_blocks (wait_call 10 (-1)) (fresh idle_resumed)).
  evaluate.
Defined.

Lemma epoll_wait_first_attempt_blocks_witness :
  exists r,
    syscallhandler_epoll_wait (wait_call 10 250) (fresh idle) =
      Some (r,
            {| world :=
                 process_listenForStatus (Some sys_timer) 3%N DS_READABLE
                   (_syscallhandler_setListenTimeoutMillis 250 idle);
               calls :=
                 [ Call_host_lookupDescriptor 3;
                   Call_validateDescriptor (Some 3%N) DT_EPOLL;
                   Call_epoll_getNumReadyEvents 3%N;
                   Call_wasBlocked;
                   Call_setListenTimeoutMillis 250;
                   Call_process_listenForStatus (Some sys_timer) 3%N DS_READABLE ] |}) /\
    state r = SYSCALL_BLOCK.
Proof.
  apply (epoll_wait_first_attempt_blocks (wait_call 10 250) (fresh idle) 3%N).
  - evaluate.
  - evaluate.
  - split; evaluate.
  - evaluate.
  - evaluate.
  - evaluate.
Defined.


(** C5, as stated, fails: with a null events pointer and maxevents = 0 the
    result is -EINVAL, not -EFAULT. *)
Lemma epoll_wait_null_events_not_always_EFAULT :
  val (wait_eventsPtr (wait_call_null 0 0)) = 0 /\
  syscallhandler_epoll_wait (wait_call_null 0 0) (fresh idle) =
    Some (syscall_done (- EINVAL), fresh idle) /\
  syscallhandler_epoll_wait (wait_call_null 0 0) (fresh idle) <>
    Some (syscall_done (- EFAULT), fresh idle).
Proof.
  split; [reflexivity|]. split; [reflexivity|].
  intros H. apply (f_equal (fun run => retval <$> answer run)) in H.
  vm_compute in H. discriminate H.
Qed.

Lemma epoll_wait_argument_errors_witness :
  syscallhandler_epoll_wait (wait_call 0 0) (fresh idle) =
    Some (syscall_done (- EINVAL), fresh idle) /\
  syscallhandler_epoll_wait (wait_call_null 10 0) (fresh idle) =
    Some (syscall_done (- EFAULT), fresh idle).
Proof.
  split.
  - apply (proj1 (epoll_wait_argument_errors (wait_call 0 0) (fresh idle))).
    evaluate.
  - apply (proj2 (epoll_wait_argument_errors (wait_call_null 10 0) (fresh idle)));
      evaluate.
Defined.

Lemma epoll_wait_maxevents_checked_first_witness :
  syscallhandler_epoll_wait (wait_call_null (-1) 0) (fresh idle) =
    Some (syscall_done (- EINVAL), fresh idle) /\
  syscallhandler_epoll_wait (wait_call_null (-1) 0) (fresh idle) <>
    Some (syscall_done (- EFAULT), fresh idle).
Proof.
  apply (epoll_wait_maxevents_checked_first (wait_call_null (-1) 0) (fresh idle));
    evaluate.
Defined.

(** C6, as stated, fails: with epfd equal to fd and a null event pointer
    the result is -EFAULT, not -EINVAL. *)
Lemma epoll_ctl_self_watch_not_always_EINVAL :
  ctl_epfd (ctl_call 3 1 3 0) = ctl_fd (ctl_call 3 1 3 0) /\
  syscallhandler_epoll_ctl (ctl_call 3 1 3 0) (fresh idle) =
    Some (syscall_done (- EFAULT), fresh idle) /\
  syscallhandler_epoll_ctl (ctl_call 3 1 3 0) (fresh idle) <>
    Some (syscall_done (- EINVAL), fresh idle).
Proof.
  split; [reflexivity|]. split; [reflexivity|].
  intros H. apply (f_equal (fun run => retval <$> answer run)) in H.
  vm_compute in H. discriminate H.
Qed.

Lemma epoll_ctl_argument_errors_witness :
  syscallhandler_epoll_ctl (ctl_call 3 3 4 0) (fresh idle) =
    Some (syscall_done (- EFAULT), fresh idle) /\
  syscallhandler_epoll_ctl (ctl_call 3 1 3 4096) (fresh idle) =
    Some (syscall_done (- EINVAL), fresh idle).
Proof.
  split.
  - apply (proj1 (epoll_ctl_argument_errors (ctl_call 3 3 4 0) (fresh idle))).
    evaluate.
  - apply (proj2 (epoll_ctl_argument_errors (ctl_call 3 1 3 4096) (fresh idle)));
      evaluate.
Defined.

Lemma epoll_ctl_dispatch_witness :
  (exists child,
     host_lookupDescriptor idle 4 = Some child /\
     syscallhandler_epoll_ctl (ctl_call 3 2 4 4096) (fresh idle) =
       Some (syscall_done
               (fst (epoll_control 3%N 2 child {| events := EPOLLIN; data := 42 |} idle)),
             {| world :=
                  snd (epoll_control 3%N 2 child {| events := EPOLLIN; data := 42 |} idle);
                calls :=
                  [] ++ ctl_prologue (ctl_call 3 2 4 4096) 3%N idle ++
                  [ Call_epoll_control 3%N 2 child
                      {| events := EPOLLIN; data := 42 |} ] |})) /\
  syscallhandler_epoll_ctl (ctl_call 3 1 7 4096) (fresh idle) =
    Some (syscall_done
            (fst (epoll_controlOS 3%N 1 100 {| events := EPOLLIN; data := 42 |} idle)),
          {| world :=
               snd (epoll_controlOS 3%N 1 100 {| events := EPOLLIN; data := 42 |} idle);
             calls :=
               [] ++ ctl_prologue (ctl_call 3 1 7 4096) 3%N idle ++
               [ Call_host_getOSHandle 7;
                 Call_epoll_controlOS 3%N 1 100
                   {| events := EPOLLIN; data := 42 |} ] |}).
Proof.
  split.
  - apply (proj1 (epoll_ctl_dispatch (ctl_call 3 2 4 4096) (fresh idle) 3%N
                    ltac:(evaluate) ltac:(evaluate) ltac:(split; evaluate))).
    evaluate.
  - apply (proj2 (epoll_ctl_dispatch (ctl_call 3 1 7 4096) (fresh idle) 3%N
                    ltac:(evaluate) ltac:(evaluate) ltac:(split; evaluate))).
    evaluate.
Defined.


End Scenarios.

(** C9. [epoll_create], [epoll_create1] and [epoll_ctl] return, and return
    DONE, on every input and in every world; [epoll_wait] does return
    BLOCK on some. *)
Theorem only_epoll_wait_blocks :
  (forall (C : Collaborators) (a : SysCallArgs) (s : St),
     (exists r s', syscallhandler_epoll_create a s = Some (r, s') /\
                   state r = SYSCALL_DONE) /\
     (exists r s', syscallhandler_epoll_create1 a s = Some (r, s') /\
                   state r = SYSCALL_DONE) /\
     (exists r s', syscallhandler_epoll_ctl a s = Some (r, s') /\
                   state r = SYSCALL_DONE)) /\
  (exists (C : Collaborators) (a : SysCallArgs) (s s' : St),
     syscallhandler_epoll_wait a s = Some (syscall_block, s')).
Proof.
  split.
  - intros C a s. split; [apply epoll_create_done|].
    split; [apply epoll_create1_done|apply epoll_ctl_done].
  - exists Reference.reference, (Reference.wait_call 10 (-1)),
      (start (C := Reference.reference) Reference.idle).
    exists (default (start (C := Reference.reference) Reference.idle)
              (snd <$>
                 syscallhandler_epoll_wait (Reference.wait_call 10 (-1))
                   (start (C := Reference.reference) Reference.idle))).
    reflexivity.
Qed.

(** ** Properties of the PHOLD client *)

Section ClientProperties.
Import PHoldTest.
Context `{OS : PholdOS}.

Lemma run_oscall {A} (c : OsCall) (f : Kernel -> A * Kernel) (st : PSt) :
  oscall c f st =
    Some (fst (f (kernel st)),
          {| phold := phold st; kernel := snd (f (kernel st));
             pholdLogFilterLevel := pholdLogFilterLevel st;
             printed := printed st; oscalls := oscalls st ++ [c] |}).
Proof. unfold oscall. destruct (f (kernel st)). reflexivity. Qed.

Ltac psimpl :=
  cbn [phold kernel pholdLogFilterLevel printed oscalls fst snd].

Ltac pcases :=
  repeat (psimpl; repeat (rewrite run_oscall; psimpl);
          match goal with
          | |- context [if ?c then _ else _] => destruct c
          end);
  psimpl; repeat (rewrite run_oscall; psimpl).

Ltac prun :=
  unfold phold_error, phold_warning, phold_info, phold_debug, PHOLD_ASSERT;
  unfold pbind, pret, get_phold, update_phold, set_pholdLogFilterLevel,
    oscall_, g_assert, str, _phold_log;
  psimpl; repeat (rewrite run_oscall; psimpl).

Lemma htonl_bytes a b c d :
  0 <= a < 256 -> 0 <= b < 256 -> 0 <= c < 256 -> 0 <= d < 256 ->
  htonl (a + 256 * b + 65536 * c + 16777216 * d) =
    d + 256 * c + 65536 * b + 16777216 * a.
Proof.
  intros Ha Hb Hc Hd. unfold htonl.
  set (x := a + 256 * b + 65536 * c + 16777216 * d).
  assert (H0 : x mod 256 = a).
  { symmetry. apply (Z.mod_unique x 256 (b + 256 * c + 65536 * d) a); subst x; lia. }
  assert (H1 : x / 256 = b + 256 * c + 65536 * d).
  { symmetry. apply (Z.div_unique x 256 _ a); subst x; lia. }
  assert (H2 : x / 65536 = c + 256 * d).
  { symmetry. apply (Z.div_unique x 65536 _ (a + 256 * b)); subst x; lia. }
  assert (H3 : x / 16777216 = d).
  { symmetry. apply (Z.div_unique x 16777216 _ (a + 256 * b + 65536 * c));
      subst x; lia. }
  rewrite H0, H1, H2, H3.
  replace ((b + 256 * c + 65536 * d) mod 256) with b
    by (apply (Z.mod_unique _ 256 (c + 256 * d) b); lia).
  replace ((c + 256 * d) mod 256) with c
    by (apply (Z.mod_unique _ 256 d c); lia).
  rewrite (Z.mod_small d 256) by lia. lia.
Qed.

Lemma bytes_of_word x :
  0 <= x < 2 ^ 32 ->
  exists a b c d,
    0 <= a < 256 /\ 0 <= b < 256 /\ 0 <= c < 256 /\ 0 <= d < 256 /\
    x = a + 256 * b + 65536 * c + 16777216 * d.
Proof.
  replace (2 ^ 32) with 4294967296 by reflexivity. intros Hx.
  exists (x mod 256), (x / 256 mod 256), (x / 256 / 256 mod 256), (x / 256 / 256 / 256).
  pose proof (Z.mod_pos_bound x 256 ltac:(lia)).
  pose proof (Z.mod_pos_bound (x / 256) 256 ltac:(lia)).
  pose proof (Z.mod_pos_bound (x / 256 / 256) 256 ltac:(lia)).
  pose proof (Z.div_mod x 256 ltac:(lia)).
  pose proof (Z.div_mod (x / 256) 256 ltac:(lia)).
  pose proof (Z.div_mod (x / 256 / 256) 256 ltac:(lia)).
  assert (0 <= x / 256 / 256 / 256 < 256).
  { split; [repeat apply Z.div_pos; lia|].
    repeat (apply Z.div_lt_upper_bound; [lia|]). lia. }
  repeat split; lia.
Qed.

Lemma htonl_involutive x : 0 <= x < 2 ^ 32 -> htonl (htonl x) = x.
Proof.
  intros Hx. destruct (bytes_of_word x Hx) as (a & b & c & d & Ha & Hb & Hc & Hd & ->).
  rewrite htonl_bytes by assumption. rewrite htonl_bytes by assumption. lia.
Qed.

Lemma to_in_addr_t_range z : 0 <= to_in_addr_t z < 2 ^ 32.
Proof. unfold to_in_addr_t. apply Z.mod_pos_bound. lia. Qed.

(** X15. The address of a peer decodes to 1 + BASE_IP_ADDR + index, so
    indexes below 2^32 have addresses of their own. *)
Theorem node_address_round_trip (i j : Z) :
  0 <= i < 2 ^ 32 ->
  0 <= j < 2 ^ 32 ->
  htonl (node_address i) = (1 + BASE_IP_ADDR + i) mod 2 ^ 32 /\
  (node_address i = node_address j -> i = j).
Proof.
  intros Hi Hj.
  assert (Hdecode : forall k, htonl (node_address k) = (1 + BASE_IP_ADDR + k) mod 2 ^ 32).
  { intros k. unfold node_address. rewrite htonl_involutive by apply to_in_addr_t_range.
    reflexivity. }
  split; [apply Hdecode|].
  intros Hsame. apply (f_equal htonl) in Hsame. rewrite !Hdecode in Hsame.
  unfold BASE_IP_ADDR in Hsame.
  replace (2 ^ 32) with 4294967296 in * by reflexivity.
  assert (Hcases : forall k, 0 <= k < 4294967296 ->
            (1 + 184549376 + k) mod 4294967296 =
              if 1 + 184549376 + k <? 4294967296 then 1 + 184549376 + k
              else 1 + 184549376 + k - 4294967296).
  { intros k Hk. destruct (Z.ltb_spec (1 + 184549376 + k) 4294967296).
    - apply Z.mod_small. lia.
    - symmetry. apply (Z.mod_unique _ 4294967296 1). lia. lia. }
  rewrite !Hcases in Hsame by assumption.
  destruct (Z.ltb_spec (1 + 184549376 + i) 4294967296),
           (Z.ltb_spec (1 + 184549376 + j) 4294967296); lia.
Qed.

Lemma chooseNode_loop_range left i cumulative normWeight r :
  0 <= chooseNode_loop left i cumulative normWeight r < 2 ^ 32.
Proof.
  revert i cumulative. induction left as [|left IH]; intros i cumulative; cbn.
  - apply to_in_addr_t_range.
  - destruct (PrimFloat.leb _ _); [apply to_in_addr_t_range|apply IH].
Qed.

(** *** Sending *)

(** What [_phold_sendToNode] does, for a client whose host name is set. *)
Lemma sendToNode_effect (peerIndex port msg msg_len : Z) (st : PSt) (h : string) :
  hostname (phold st) = Some h ->
  let opened := os_socket AF_INET (Z.lor SOCK_DGRAM SOCK_NONBLOCK) 0 (kernel st) in
  let socketd := fst opened in
  let node := {| sin_family := AF_INET; sin_port := port;
                 sin_addr := node_address peerIndex |} in
  let sent := os_sendto socketd msg msg_len 0 node (snd opened) in
  let b := fst sent in
  exists st' lines,
    _phold_sendToNode peerIndex port msg msg_len st =
      Some ((if 0 <? b then TRUE else FALSE), st') /\
    phold st' = (if 0 <? b then count_sent b (phold st) else phold st) /\
    kernel st' = snd (os_close socketd (snd sent)) /\
    pholdLogFilterLevel st' = pholdLogFilterLevel st /\
    printed st' = printed st ++ lines /\
    Forall (fun l => format l = "host '%s' sent %i byte%s to host '%s%li'"%string \/
                     format l = "sendto(): returned %i host '%s' errno %i: %s"%string)
           lines /\
    oscalls st' = oscalls st ++
      [ Os_socket AF_INET (Z.lor SOCK_DGRAM SOCK_NONBLOCK) 0;
        Os_sendto socketd msg msg_len 0 node;
        Os_close socketd ].
Proof.
  intros Hhost opened socketd node sent b. subst b sent node socketd opened.
  unfold _phold_sendToNode. prun.
  set (opened := os_socket AF_INET (Z.lor SOCK_DGRAM SOCK_NONBLOCK) 0 (kernel st)).
  set (sent := os_sendto (fst opened) msg msg_len 0 _ (snd opened)).
  destruct (0 <? fst sent) eqn:Hpos; [|destruct (fst sent <? 0) eqn:Hneg].
  - psimpl.
    cbn [hostname set_num_msgs_sent set_num_msgs_sent_tot set_num_bytes_sent
         set_num_bytes_sent_tot].
    rewrite Hhost. psimpl.
    destruct (pholdLogFilterLevel st <? G_LOG_LEVEL_DEBUG);
      psimpl; rewrite run_oscall; psimpl;
      eexists _, _; (split; [reflexivity|]); psimpl;
      repeat rewrite <- List.app_assoc; cbn [app].
    + do 3 (split; [reflexivity|]). split; [symmetry; apply app_nil_r|].
      split; [constructor|reflexivity].
    + do 4 (split; [reflexivity|]).
      split; [repeat constructor; left; reflexivity|reflexivity].
  - psimpl. rewrite Hhost. psimpl.
    destruct (pholdLogFilterLevel st <? G_LOG_LEVEL_WARNING);
      psimpl; rewrite run_oscall; psimpl;
      eexists _, _; (split; [reflexivity|]); psimpl;
      repeat rewrite <- List.app_assoc; cbn [app].
    + do 3 (split; [reflexivity|]). split; [symmetry; apply app_nil_r|].
      split; [constructor|reflexivity].
    + do 4 (split; [reflexivity|]).
      split; [repeat constructor; right; reflexivity|reflexivity].
  - psimpl. rewrite run_oscall. psimpl.
    eexists _, _. split; [reflexivity|]. psimpl.
    repeat rewrite <- List.app_assoc. cbn [app].
    do 3 (split; [reflexivity|]). split; [symmetry; apply app_nil_r|].
    split; [constructor|reflexivity].
Qed.

Lemma chooseNode_run (st : PSt) :
  magic (phold st) = PHOLD_MAGIC ->
  exists idx,
    0 <= idx < 2 ^ 32 /\
    (num_peers (phold st) = 0 -> idx = 2 ^ 32 - 1) /\
    _phold_chooseNode st =
      Some (idx, {| phold := phold st; kernel := snd (os_random (kernel st));
                    pholdLogFilterLevel := pholdLogFilterLevel st;
                    printed := printed st;
                    oscalls := oscalls st ++ [Os_random] |}).
Proof.
  intros Hmagic. unfold _phold_chooseNode, _phold_get_uniform_double. prun.
  rewrite Hmagic, Z.eqb_refl. psimpl. rewrite run_oscall. psimpl.
  eexists. split; [apply chooseNode_loop_range|]. split; [|reflexivity].
  intros ->. reflexivity.
Qed.

Lemma count_sent_keeps (b : Z) (p : PHold) :
  magic (count_sent b p) = magic p /\
  hostname (count_sent b p) = hostname p /\
  sendbuf (count_sent b p) = sendbuf p /\
  size (count_sent b p) = size p /\
  num_peers (count_sent b p) = num_peers p.
Proof. repeat split. Qed.

(** What [_phold_sendNewMessage] does, for a client whose host name is
    set. *)
Lemma sendNewMessage_effect (st : PSt) (h : string) :
  magic (phold st) = PHOLD_MAGIC ->
  hostname (phold st) = Some h ->
  exists st' idx st1 socketd b lines,
    _phold_chooseNode st = Some (idx, st1) /\
    socketd = fst (os_socket AF_INET (Z.lor SOCK_DGRAM SOCK_NONBLOCK) 0 (kernel st1)) /\
    0 <= idx < 2 ^ 32 /\
    (num_peers (phold st) = 0 -> idx = 2 ^ 32 - 1) /\
    _phold_sendNewMessage st = Some (tt, st') /\
    phold st' = (if 0 <? b then count_sent b (phold st) else phold st) /\
    pholdLogFilterLevel st' = pholdLogFilterLevel st /\
    printed st' = printed st ++ lines /\
    Forall (fun l => format l = "host '%s' sent %i byte%s to host '%s%li'"%string \/
                     format l = "sendto(): returned %i host '%s' errno %i: %s"%string)
           lines /\
    oscalls st' = oscalls st ++
      [ Os_random;
        Os_socket AF_INET (Z.lor SOCK_DGRAM SOCK_NONBLOCK) 0;
        Os_sendto socketd (sendbuf (phold st)) (size (phold st)) 0
          {| sin_family := AF_INET; sin_port := htons PHOLD_LISTEN_PORT;
             sin_addr := node_address idx |};
        Os_close socketd ].
Proof.
  intros Hmagic Hhost.
  destruct (chooseNode_run st Hmagic) as (idx & Hidx & Hnone & Hchoose).
  assert (Hrun : exists st' b lines,
            _phold_sendNewMessage st = Some (tt, st') /\
            phold st' = (if 0 <? b then count_sent b (phold st) else phold st) /\
            pholdLogFilterLevel st' = pholdLogFilterLevel st /\
            printed st' = printed st ++ lines /\
            Forall (fun l =>
                      format l = "host '%s' sent %i byte%s to host '%s%li'"%string \/
                      format l = "sendto(): returned %i host '%s' errno %i: %s"%string)
                   lines /\
            oscalls st' = oscalls st ++
              [ Os_random;
                Os_socket AF_INET (Z.lor SOCK_DGRAM SOCK_NONBLOCK) 0;
                Os_sendto
                  (fst (os_socket AF_INET (Z.lor SOCK_DGRAM SOCK_NONBLOCK) 0
                          (snd (os_random (kernel st)))))
                  (sendbuf (phold st)) (size (phold st)) 0
                  {| sin_family := AF_INET; sin_port := htons PHOLD_LISTEN_PORT;
                     sin_addr := node_address idx |};
                Os_close
                  (fst (os_socket AF_INET (Z.lor SOCK_DGRAM SOCK_NONBLOCK) 0
                          (snd (os_random (kernel st))))) ]).
  { unfold _phold_sendNewMessage. prun. rewrite Hmagic, Z.eqb_refl.
    rewrite Hchoose.
    destruct (Z.leb_spec 0 idx) as [_|?]; [|lia]. psimpl.
    match goal with
    | |- context [_phold_sendToNode ?i ?port ?msg ?len ?s] =>
        destruct (sendToNode_effect i port msg len s h Hhost)
          as (st' & lines & Hsend & Hphold & _ & Hfilter & Hprinted & Hlines & Hcalls);
        rewrite Hsend
    end.
    cbn [phold kernel pholdLogFilterLevel printed oscalls fst snd]
      in Hphold, Hfilter, Hprinted, Hcalls.
    eexists st', _, lines. split; [reflexivity|].
    split; [exact Hphold|]. split; [exact Hfilter|]. split; [exact Hprinted|].
    split; [exact Hlines|].
    rewrite Hcalls. repeat rewrite <- List.app_assoc. reflexivity. }
  destruct Hrun as (st' & b & lines & Hrun & Hphold & Hfilter & Hprinted & Hlines & Hcalls).
  eexists st', idx, _, _, b, lines. split; [exact Hchoose|]. psimpl.
  split; [reflexivity|]. split; [exact Hidx|]. split; [exact Hnone|].
  split; [exact Hrun|].
  split; [exact Hphold|]. split; [exact Hfilter|]. split; [exact Hprinted|].
  split; [exact Hlines|exact Hcalls].
Qed.

(** X10. [_phold_sendNewMessage] always sends: the index that
    [_phold_chooseNode] returns on the same state is an unsigned 32-bit
    value, never negative, so the warning for a failed choice is never
    printed; the run opens one socket, sends the buffer once to the address
    of that very index, on the descriptor [socket] returned, and closes that
    descriptor.  (The number of peers is below 2^63, where the loop index and
    the conversion to double are defined.) *)
Theorem sendNewMessage_always_sends (st : PSt) (h : string) :
  magic (phold st) = PHOLD_MAGIC ->
  hostname (phold st) = Some h ->
  0 <= num_peers (phold st) < 2 ^ 63 ->
  exists st' idx st1 lines,
    _phold_chooseNode st = Some (idx, st1) /\
    0 <= idx < 2 ^ 32 /\
    _phold_sendNewMessage st = Some (tt, st') /\
    printed st' = printed st ++ lines /\
    Forall (fun l => format l <> "Unable to choose valid peer index"%string) lines /\
    let socketd :=
      fst (os_socket AF_INET (Z.lor SOCK_DGRAM SOCK_NONBLOCK) 0 (kernel st1)) in
    oscalls st' = oscalls st ++
      [ Os_random;
        Os_socket AF_INET (Z.lor SOCK_DGRAM SOCK_NONBLOCK) 0;
        Os_sendto socketd (sendbuf (phold st)) (size (phold st)) 0
          {| sin_family := AF_INET; sin_port := htons PHOLD_LISTEN_PORT;
             sin_addr := node_address idx |};
        Os_close socketd ].
Proof.
  intros Hmagic Hhost _.
  destruct (sendNewMessage_effect st h Hmagic Hhost)
    as (st' & idx & st1 & socketd & b & lines & Hchoose & Hsock & Hidx & _ & Hrun
        & _ & _ & Hprinted & Hlines & Hcalls).
  exists st', idx, st1, lines. split; [exact Hchoose|]. split; [exact Hidx|].
  split; [exact Hrun|]. split; [exact Hprinted|].
  split; [|cbv zeta; rewrite <- Hsock; exact Hcalls].
  eapply Forall_impl; [exact Hlines|]. cbn beta.
  intros l [Hfmt|Hfmt]; rewrite Hfmt; discriminate.
Qed.

(** X19. A client without peers still sends: [_phold_chooseNode] answers
    -1 as the unsigned 2^32 - 1, and the datagram goes to BASE_IP_ADDR
    itself, one below the address of the first peer. *)
Theorem sendNewMessage_without_peers (st : PSt) (h : string) :
  magic (phold st) = PHOLD_MAGIC ->
  hostname (phold st) = Some h ->
  num_peers (phold st) = 0 ->
  exists st' socketd,
    _phold_sendNewMessage st = Some (tt, st') /\
    oscalls st' = oscalls st ++
      [ Os_random;
        Os_socket AF_INET (Z.lor SOCK_DGRAM SOCK_NONBLOCK) 0;
        Os_sendto socketd (sendbuf (phold st)) (size (phold st)) 0
          {| sin_family := AF_INET; sin_port := htons PHOLD_LISTEN_PORT;
             sin_addr := htonl BASE_IP_ADDR |};
        Os_close socketd ].
Proof.
  intros Hmagic Hhost Hnone.
  destruct (sendNewMessage_effect st h Hmagic Hhost)
    as (st' & idx & st1 & socketd & b & lines & _ & _ & _ & Hidx & Hrun
        & _ & _ & _ & _ & Hcalls).
  exists st', socketd. split; [exact Hrun|].
  rewrite Hcalls, (Hidx Hnone). reflexivity.
Qed.

(** X11. [_phold_sendToNode] counts a datagram only when [sendto] reports
    a positive length, and then in the interval counters and in the totals
    alike; it answers TRUE exactly then; whatever [sendto] and [socket]
    answered, the descriptor that [socket] returned is closed. *)
Theorem sendToNode_accounting
    (peerIndex port msg msg_len : Z) (st : PSt) (h : string) :
  hostname (phold st) = Some h ->
  let opened := os_socket AF_INET (Z.lor SOCK_DGRAM SOCK_NONBLOCK) 0 (kernel st) in
  let socketd := fst opened in
  let node := {| sin_family := AF_INET; sin_port := port;
                 sin_addr := node_address peerIndex |} in
  let b := fst (os_sendto socketd msg msg_len 0 node (snd opened)) in
  exists st',
    _phold_sendToNode peerIndex port msg msg_len st =
      Some ((if 0 <? b then TRUE else FALSE), st') /\
    phold st' = (if 0 <? b then count_sent b (phold st) else phold st) /\
    oscalls st' = oscalls st ++
      [ Os_socket AF_INET (Z.lor SOCK_DGRAM SOCK_NONBLOCK) 0;
        Os_sendto socketd msg msg_len 0 node;
        Os_close socketd ].
Proof.
  intros Hhost opened socketd node b.
  destruct (sendToNode_effect peerIndex port msg msg_len st h Hhost)
    as (st' & lines & Hrun & Hphold & _ & _ & _ & _ & Hcalls).
  exists st'. split; [exact Hrun|]. split; [exact Hphold|exact Hcalls].
Qed.

Lemma count_calls_app f (cs1 cs2 : list OsCall) :
  count_calls f (cs1 ++ cs2) = (count_calls f cs1 + count_calls f cs2)%nat.
Proof. unfold count_calls. rewrite List.filter_app, length_app. reflexivity. Qed.

Lemma sendNewMessages_effect (n : nat) :
  forall (st : PSt) (h : string),
    magic (phold st) = PHOLD_MAGIC ->
    hostname (phold st) = Some h ->
    exists st' cs k,
      sendNewMessages n st = Some (tt, st') /\
      oscalls st' = oscalls st ++ cs /\
      count_calls is_socket cs = n /\
      count_calls is_sendto cs = n /\
      count_calls is_close cs = n /\
      (k <= n)%nat /\
      num_msgs_sent (phold st') mod 2 ^ 64 =
        (num_msgs_sent (phold st) + Z.of_nat k) mod 2 ^ 64 /\
      num_msgs_sent_tot (phold st') mod 2 ^ 64 =
        (num_msgs_sent_tot (phold st) + Z.of_nat k) mod 2 ^ 64.
Proof.
  induction n as [|n IH]; intros st h Hmagic Hhost.
  - exists st, [], 0%nat. cbn [sendNewMessages]. unfold pret.
    rewrite app_nil_r, !Z.add_0_r. repeat split; reflexivity.
  - destruct (sendNewMessage_effect st h Hmagic Hhost)
      as (st1 & idx & stc & socketd & b & lines & _ & _ & _ & _ & Hrun & Hphold
          & _ & _ & _ & Hcalls).
    assert (Hkeep : magic (phold st1) = PHOLD_MAGIC /\ hostname (phold st1) = Some h).
    { rewrite Hphold. destruct (0 <? b); [|tauto].
      destruct (count_sent_keeps b (phold st)) as (-> & -> & _). tauto. }
    destruct Hkeep as [Hmagic1 Hhost1].
    destruct (IH st1 h Hmagic1 Hhost1)
      as (st' & cs & k & Hrest & Hcs & Hsockets & Hsends & Hcloses & Hk & Hsent & Htot).
    cbn [sendNewMessages]. unfold pbind. rewrite Hrun, Hrest.
    eexists st', _, (if 0 <? b then S k else k).
    split; [reflexivity|].
    split; [rewrite Hcs, Hcalls, <- List.app_assoc; reflexivity|].
    rewrite !count_calls_app, Hsockets, Hsends, Hcloses.
    do 3 (split; [reflexivity|]).
    split; [destruct (0 <? b); lia|].
    rewrite Hsent, Htot, Hphold. destruct (0 <? b).
    + cbn [count_sent num_msgs_sent num_msgs_sent_tot set_num_msgs_sent
           set_num_msgs_sent_tot set_num_bytes_sent set_num_bytes_sent_tot].
      unfold to_guint64. rewrite !Zplus_mod_idemp_l.
      split; f_equal; lia.
    + split; reflexivity.
Qed.

(** X12. [_phold_bootstrapMessages] opens, uses and closes one socket for
    each of the msgload messages, whatever [sendto] answers, and moves the
    interval count and the total count of messages sent by the same number
    k <= msgload of datagrams that went out. *)
Theorem bootstrapMessages_sends_msgload (st : PSt) (h : string) :
  magic (phold st) = PHOLD_MAGIC ->
  hostname (phold st) = Some h ->
  0 <= num_peers (phold st) < 2 ^ 63 ->
  let n := Z.to_nat (msgload (phold st)) in
  exists st' cs k,
    _phold_bootstrapMessages st = Some (tt, st') /\
    oscalls st' = oscalls st ++ cs /\
    count_calls is_socket cs = n /\
    count_calls is_sendto cs = n /\
    count_calls is_close cs = n /\
    (k <= n)%nat /\
    num_msgs_sent (phold st') mod 2 ^ 64 =
      (num_msgs_sent (phold st) + Z.of_nat k) mod 2 ^ 64 /\
    num_msgs_sent_tot (phold st') mod 2 ^ 64 =
      (num_msgs_sent_tot (phold st) + Z.of_nat k) mod 2 ^ 64.
Proof.
  intros Hmagic Hhost _ n. subst n. unfold _phold_bootstrapMessages. prun.
  destruct (pholdLogFilterLevel st <? G_LOG_LEVEL_INFO);
    match goal with
    | |- context [sendNewMessages ?n ?s] =>
        destruct (sendNewMessages_effect n s h Hmagic Hhost)
          as (st' & cs & k & Hrun & Hcs & Hrest)
    end;
    exists st', cs, k; (split; [exact Hrun|]); (split; [exact Hcs|]); exact Hrest.
Qed.

(** *** Start-up *)

Lemma startListening_checks_the_timer_aux (st : PSt) :
  magic (phold st) = PHOLD_MAGIC ->
  let opened := os_socket AF_INET (Z.lor SOCK_DGRAM SOCK_NONBLOCK) 0 (kernel st) in
  let fd := fst opened in
  let bindAddr := {| sin_family := AF_INET; sin_port := htons PHOLD_LISTEN_PORT;
                     sin_addr := htonl INADDR_ANY |} in
  (timerd (phold st) < 0 ->
     exists st',
       _phold_startListening st = Some (-1, st') /\
       listend (phold st') = fd /\
       oscalls st' = oscalls st ++
         [ Os_socket AF_INET (Z.lor SOCK_DGRAM SOCK_NONBLOCK) 0 ]) /\
  (0 <= timerd (phold st) ->
     exists st',
       _phold_startListening st =
         Some ((if fst (os_bind fd bindAddr (snd opened)) <? 0 then -1 else 0), st') /\
       listend (phold st') = fd /\
       oscalls st' = oscalls st ++
         [ Os_socket AF_INET (Z.lor SOCK_DGRAM SOCK_NONBLOCK) 0;
           Os_bind fd bindAddr ]).
Proof.
  intros Hmagic opened fd bindAddr. subst bindAddr fd opened.
  unfold _phold_startListening. prun. rewrite Hmagic, Z.eqb_refl. psimpl.
  rewrite run_oscall. psimpl. cbn [timerd listend set_listend].
  split; intros Htimer.
  - rewrite (proj2 (Z.ltb_lt _ _) Htimer). pcases;
      eexists; (split; [reflexivity|]); split; reflexivity.
  - rewrite (proj2 (Z.ltb_ge _ _) Htimer). pcases;
      eexists; (split; [reflexivity|]); psimpl;
      repeat rewrite <- List.app_assoc; split; reflexivity.
Qed.

(** X13. [_phold_startListening] tests the timer descriptor, not the socket
    it has just opened: with a negative timerd it gives up, the new socket
    still stored in listend and left open; otherwise it binds whatever
    [socket] returned, a negative value included, and answers by the
    result of [bind] alone. *)
Theorem startListening_checks_the_timer (st : PSt) :
  magic (phold st) = PHOLD_MAGIC ->
  let opened := os_socket AF_INET (Z.lor SOCK_DGRAM SOCK_NONBLOCK) 0 (kernel st) in
  let fd := fst opened in
  let bindAddr := {| sin_family := AF_INET; sin_port := htons PHOLD_LISTEN_PORT;
                     sin_addr := htonl INADDR_ANY |} in
  (timerd (phold st) < 0 ->
     exists st',
       _phold_startListening st = Some (-1, st') /\
       listend (phold st') = fd /\
       oscalls st' = oscalls st ++
         [ Os_socket AF_INET (Z.lor SOCK_DGRAM SOCK_NONBLOCK) 0 ]) /\
  (0 <= timerd (phold st) ->
     exists st',
       _phold_startListening st =
         Some ((if fst (os_bind fd bindAddr (snd opened)) <? 0 then -1 else 0), st') /\
       listend (phold st') = fd /\
       oscalls st' = oscalls st ++
         [ Os_socket AF_INET (Z.lor SOCK_DGRAM SOCK_NONBLOCK) 0;
           Os_bind fd bindAddr ]).
Proof. apply startListening_checks_the_timer_aux. Qed.

Lemma startHeartbeatTimer_success (st st1 : PSt) :
  _phold_startHeartbeatTimer st = Some (0, st1) ->
  0 <= timerd (phold st1) /\ magic (phold st1) = PHOLD_MAGIC.
Proof.
  unfold _phold_startHeartbeatTimer. prun.
  destruct (Z.eqb_spec (magic (phold st)) PHOLD_MAGIC) as [Hmagic|]; [|discriminate].
  psimpl. rewrite run_oscall. psimpl. cbn [timerd set_timerd].
  match goal with
  | |- context [fst ?created <? 0] =>
      destruct (Z.ltb_spec (fst created) 0) as [Hneg|Hpos]
  end.
  - pcases; discriminate.
  - pcases; intros Hrun; try discriminate;
      injection Hrun as <-; cbn [phold timerd magic set_timerd];
      split; assumption.
Qed.

(** X14. In the order [_phold_run] starts them, the heartbeat timer first,
    the early exit of [_phold_startListening] cannot be taken: once
    [_phold_startHeartbeatTimer] has answered 0 the listener goes on to
    [bind] whatever [socket] returned. *)
Theorem startListening_after_timer_always_binds (st st1 : PSt) :
  _phold_startHeartbeatTimer st = Some (0, st1) ->
  let opened := os_socket AF_INET (Z.lor SOCK_DGRAM SOCK_NONBLOCK) 0 (kernel st1) in
  let bindAddr := {| sin_family := AF_INET; sin_port := htons PHOLD_LISTEN_PORT;
                     sin_addr := htonl INADDR_ANY |} in
  exists st2,
    _phold_startListening st1 =
      Some ((if fst (os_bind (fst opened) bindAddr (snd opened)) <? 0 then -1 else 0),
            st2) /\
    oscalls st2 = oscalls st1 ++
      [ Os_socket AF_INET (Z.lor SOCK_DGRAM SOCK_NONBLOCK) 0;
        Os_bind (fst opened) bindAddr ].
Proof.
  intros Hstart opened bindAddr.
  destruct (startHeartbeatTimer_success st st1 Hstart) as [Htimer Hmagic].
  destruct (startListening_checks_the_timer_aux st1 Hmagic) as [_ Hbind].
  destruct (Hbind Htimer) as (st2 & Hrun & _ & Hcalls).
  exists st2. split; assumption.
Qed.

(** *** Clean-up *)

Ltac fsimpl :=
  cbn [basename quantity msgload cpuload size num_peers hostname listend
       epolld_in timerd sendbuf num_msgs_sent num_msgs_sent_tot num_bytes_sent
       num_bytes_sent_tot num_msgs_recv num_msgs_recv_tot num_bytes_recv
       num_bytes_recv_tot magic
       set_basename set_quantity set_msgload set_cpuload set_size set_num_peers
       set_hostname set_listend set_timerd set_sendbuf set_num_msgs_sent
       set_num_msgs_sent_tot set_num_bytes_sent set_num_bytes_sent_tot
       set_num_msgs_recv set_num_bytes_recv set_magic zero_PHold].

Lemma free_without_hostname (st : PSt) :
  hostname (phold st) = None -> _phold_free st = None.
Proof.
  intros Hhost. unfold _phold_free, _phold_logHeartbeatMessage. prun.
  destruct (magic (phold st) =? PHOLD_MAGIC); [|reflexivity].
  rewrite Hhost. reflexivity.
Qed.

(** X16. [_phold_free] stops at its heartbeat line when the host name was
    never set.  On a client with a host name it closes listend and
    epolld_in, each only when positive, and no other descriptor: the
    timer is left open, and so is a listener or an epoll numbered 0. *)
Theorem free_closes_listener_and_epoll_only (st : PSt) :
  magic (phold st) = PHOLD_MAGIC ->
  (hostname (phold st) = None -> _phold_free st = None) /\
  (hostname (phold st) <> None ->
     exists st' cs,
       _phold_free st = Some (tt, st') /\
       oscalls st' = oscalls st ++ cs /\
       magic (phold st') = 0 /\
       forall fd,
         In (Os_close fd) cs <->
         (fd = listend (phold st) /\ 0 < fd) \/
         (fd = epolld_in (phold st) /\ 0 < fd)).
Proof.
  intros Hmagic. split; [apply free_without_hostname|].
  intros Hhost. destruct (hostname (phold st)) as [h|] eqn:Hh; [clear Hhost|congruence].
  unfold _phold_free, _phold_logHeartbeatMessage. prun.
  rewrite Hmagic, Z.eqb_refl. rewrite Hh. psimpl.
  destruct (pholdLogFilterLevel st <? G_LOG_LEVEL_INFO); psimpl; fsimpl;
    rewrite Hh;
    destruct (Z.ltb_spec 0 (listend (phold st))) as [Hl|Hl];
    destruct (Z.ltb_spec 0 (epolld_in (phold st))) as [He|He];
    destruct (basename (phold st)) as [name|];
    destruct (sendbuf (phold st) =? 0);
    psimpl; repeat (rewrite run_oscall; psimpl); fsimpl;
    eexists _, _; (split; [reflexivity|]); psimpl;
    repeat rewrite <- List.app_assoc;
    (split; [reflexivity|]); (split; [reflexivity|]);
    intros fd; cbn [app In];
    (split;
     [ intros Hin;
       repeat (destruct Hin as [Hin|Hin];
               [try discriminate; try (injection Hin as <-; tauto)|]);
       destruct Hin
     | intros [[-> Hpos]|[-> Hpos]]; try lia; tauto ]).
Qed.

(** *** Options *)

Lemma filter_all_length {A} (f : A -> bool) (l : list A) :
  length (List.filter f l) = length l <-> forallb f l = true.
Proof.
  induction l as [|x l IH]; cbn; [tauto|].
  pose proof (List.filter_length_le f l) as Hle.
  destruct (f x); cbn.
  - rewrite <- IH. lia.
  - split; [lia|discriminate].
Qed.

(** One turn of the option loop. *)
Lemma parseOption_effect (token : string) (st : PSt) :
  exists st',
    parseOption token st = Some ((if known_option token then 1 else 0), st') /\
    magic (phold st') = magic (phold st) /\
    hostname (phold st') = hostname (phold st) /\
    kernel st' = kernel st /\
    oscalls st' = oscalls st /\
    (basename (phold st') <> None <->
       basename (phold st) <> None \/ names_basename token = true).
Proof.
  unfold parseOption, known_option, names_basename. cbv zeta. prun.
  destruct (strcase_equal (fst (g_strsplit token)) "loglevel");
    [destruct (strcase_equal (snd (g_strsplit token)) "debug")|];
    [| |destruct (strcase_equal (fst (g_strsplit token)) "basename")];
    [| | |destruct (strcase_equal (fst (g_strsplit token)) "quantity")];
    [| | | |destruct (strcase_equal (fst (g_strsplit token)) "msgload")];
    [| | | | |destruct (strcase_equal (fst (g_strsplit token)) "cpuload")];
    [| | | | | |destruct (strcase_equal (fst (g_strsplit token)) "size")];
    [| | | | | | |destruct (pholdLogFilterLevel st <? G_LOG_LEVEL_WARNING)];
    cbn [orb andb negb]; psimpl; fsimpl;
    eexists; (split; [reflexivity|]); psimpl; fsimpl;
    repeat (split; [reflexivity|]);
    split; try tauto; try (intros [?|?]; [assumption|discriminate]);
    try (intros _; discriminate).
Qed.

Lemma parseOptions_loop_effect (tokens : list string) :
  forall (found : Z) (st : PSt),
    exists st',
      parseOptions_loop tokens found st =
        Some (found + Z.of_nat (length (List.filter known_option tokens)), st') /\
      magic (phold st') = magic (phold st) /\
      hostname (phold st') = hostname (phold st) /\
      kernel st' = kernel st /\
      oscalls st' = oscalls st /\
      (basename (phold st') <> None <->
         basename (phold st) <> None \/ existsb names_basename tokens = true).
Proof.
  induction tokens as [|token rest IH]; intros found st.
  - exists st. cbn. unfold pret. rewrite Z.add_0_r.
    repeat (split; [reflexivity|]). split; [tauto|].
    intros [?|?]; [assumption|discriminate].
  - destruct (parseOption_effect token st)
      as (st1 & Hturn & Hmagic1 & Hhost1 & Hkernel1 & Hcalls1 & Hbase1).
    destruct (IH (found + (if known_option token then 1 else 0)) st1)
      as (st' & Hloop & Hmagic & Hhost & Hkernel & Hcalls & Hbase).
    exists st'. cbn [parseOptions_loop]. unfold pbind. rewrite Hturn, Hloop.
    split.
    { f_equal. f_equal. cbn [List.filter].
      destruct (known_option token); cbn [length]; lia. }
    split; [congruence|]. split; [congruence|]. split; [congruence|].
    split; [congruence|].
    rewrite Hbase, Hbase1. cbn [existsb]. rewrite orb_true_iff. tauto.
Qed.

Lemma option_tokens_length (argv : list string) :
  length (option_tokens argv) = 6%nat.
Proof. unfold option_tokens. rewrite length_map, length_seq. reflexivity. Qed.

(** What [_phold_parseOptions] does on a client without a base name. *)
Lemma parseOptions_effect (argc : Z) (argv : option (list string)) (st : PSt) :
  magic (phold st) = PHOLD_MAGIC ->
  basename (phold st) = None ->
  let accepted :=
    argc = ARGC_PEER /\
    exists l, argv = Some l /\
      forallb known_option (option_tokens l) = true /\
      existsb names_basename (option_tokens l) = true in
  (fst (fst (os_gethostname (kernel st))) <> 0 ->
     _phold_parseOptions argc argv st = None) /\
  (fst (fst (os_gethostname (kernel st))) = 0 ->
     exists r st',
       _phold_parseOptions argc argv st = Some (r, st') /\
       (accepted -> r = TRUE /\ hostname (phold st') <> None /\
                    basename (phold st') <> None) /\
       (~ accepted -> r = FALSE /\ hostname (phold st') = hostname (phold st)) /\
       magic (phold st') = PHOLD_MAGIC).
Proof.
  intros Hmagic Hbase accepted. unfold _phold_parseOptions. prun.
  rewrite Hmagic, Z.eqb_refl. psimpl. rewrite run_oscall. psimpl. split.
  - intros Hname. destruct (Z.eqb_spec (fst (fst (os_gethostname (kernel st)))) 0);
      [contradiction|reflexivity].
  - intros Hname. rewrite Hname. cbn [Z.eqb]. psimpl.
    set (st0 := {| phold := phold st;
                   kernel := snd (os_gethostname (kernel st));
                   pholdLogFilterLevel := pholdLogFilterLevel st;
                   printed := printed st;
                   oscalls := oscalls st ++ [Os_gethostname] |}).
    assert (Hloop : exists found st1,
              match argv with
              | Some argv =>
                  if argc =? ARGC_PEER
                  then parseOptions_loop (option_tokens argv) 0
                  else fun st => Some (0, st)
              | None => fun st => Some (0, st)
              end st0 = Some (found, st1) /\
              magic (phold st1) = PHOLD_MAGIC /\
              hostname (phold st1) = hostname (phold st) /\
              (basename (phold st1) <> None /\ found = ARGC_PEER - 1 <-> accepted)).
    { subst accepted. destruct argv as [l|].
      - destruct (Z.eqb_spec argc ARGC_PEER) as [Hargc|Hargc].
        + destruct (parseOptions_loop_effect (option_tokens l) 0 st0)
            as (st1 & Hrun & Hmagic1 & Hhost1 & _ & _ & Hbase1).
          eexists _, st1. split; [exact Hrun|].
          split; [rewrite Hmagic1; exact Hmagic|]. split; [exact Hhost1|].
          rewrite Hbase1. subst st0. cbn [phold]. rewrite Hbase.
          pose proof (filter_all_length known_option (option_tokens l)) as Hall.
          pose proof (List.filter_length_le known_option (option_tokens l)) as Hle.
          rewrite option_tokens_length in Hall, Hle. unfold ARGC_PEER.
          split.
          * intros [[?|Hnamed] Hfound]; [congruence|].
            split; [assumption|]. exists l. split; [reflexivity|].
            split; [apply Hall; lia|exact Hnamed].
          * intros (_ & l' & [= <-] & Hknown & Hnamed).
            split; [right; exact Hnamed|]. apply Hall in Hknown. lia.
        + eexists _, st0. split; [reflexivity|]. split; [exact Hmagic|].
          split; [reflexivity|]. subst st0. cbn [phold]. rewrite Hbase.
          split; [intros [? _]; congruence|intros [? _]; contradiction].
      - eexists _, st0. split; [reflexivity|]. split; [exact Hmagic|].
        split; [reflexivity|]. subst st0. cbn [phold]. rewrite Hbase.
        split; [intros [? _]; congruence|].
        intros (_ & l & ? & _). discriminate. }
    destruct Hloop as (found & st1 & Hrun & Hmagic1 & Hhost1 & Haccepted).
    rewrite Hrun. psimpl.
    destruct (basename (phold st1)) as [name|] eqn:Hname1.
    + rewrite bool_decide_true by discriminate. cbn [andb].
      destruct (Z.eqb_spec found (ARGC_PEER - 1)) as [Hfound|Hfound].
      * assert (Hacc : accepted) by (apply Haccepted; split; [discriminate|assumption]).
        pcases; fsimpl; rewrite ?Hname1; pcases;
          eexists _, _; (split; [reflexivity|]); psimpl; fsimpl;
          (split; [intros _; repeat split; try discriminate;
                   rewrite Hname1; discriminate|]);
          (split; [intros Hnot; contradiction|exact Hmagic1]).
      * assert (Hacc : ~ accepted) by (intros Ha; apply Haccepted in Ha; tauto).
        pcases; eexists _, _; (split; [reflexivity|]); psimpl;
          (split; [intros Ha; contradiction|]);
          (split; [intros _; split; [reflexivity|exact Hhost1]|exact Hmagic1]).
    + rewrite bool_decide_false by (intros Hne; apply Hne; reflexivity).
      cbn [andb].
      assert (Hacc : ~ accepted) by (intros Ha; apply Haccepted in Ha; tauto).
      pcases; eexists _, _; (split; [reflexivity|]); psimpl;
        (split; [intros Ha; contradiction|]);
        (split; [intros _; split; [reflexivity|exact Hhost1]|exact Hmagic1]).
Qed.

(** X18. [_phold_parseOptions] counts options, it does not ask for each
    one: on a client without a base name it answers TRUE exactly when argc
    is 7, argv is not NULL, every one of the six options has a key it
    knows and one of them names the base name; keys may repeat and others
    be missing. *)
Theorem parseOptions_accepts_exactly
    (argc : Z) (argv : option (list string)) (st : PSt) :
  magic (phold st) = PHOLD_MAGIC ->
  basename (phold st) = None ->
  fst (fst (os_gethostname (kernel st))) = 0 ->
  exists r st',
    _phold_parseOptions argc argv st = Some (r, st') /\
    (r = TRUE \/ r = FALSE) /\
    (r = TRUE <->
       argc = ARGC_PEER /\
       exists l, argv = Some l /\
         forallb known_option (option_tokens l) = true /\
         existsb names_basename (option_tokens l) = true).
Proof.
  intros Hmagic Hbase Hname.
  destruct (parseOptions_effect argc argv st Hmagic Hbase) as [_ Hrun].
  destruct (Hrun Hname) as (r & st' & Hparse & Hyes & Hno & _).
  exists r, st'. split; [exact Hparse|].
  match type of Hyes with ?accepted -> _ =>
    assert (Hdec : accepted \/ ~ accepted)
  end.
  { destruct (Z.eq_dec argc ARGC_PEER) as [Hargc|Hargc]; [|right; tauto].
    destruct argv as [l|]; [|right; intros (_ & l & ? & _); discriminate].
    destruct (forallb known_option (option_tokens l)) eqn:Hknown;
      [|right; intros (_ & l' & [= <-] & ? & _); congruence].
    destruct (existsb names_basename (option_tokens l)) eqn:Hnamed;
      [|right; intros (_ & l' & [= <-] & _ & ?); congruence].
    left. split; [assumption|]. exists l. auto. }
  destruct Hdec as [Hacc|Hacc].
  - destruct (Hyes Hacc) as (-> & _). split; [left; reflexivity|]. tauto.
  - destruct (Hno Hacc) as (-> & _). split; [right; reflexivity|].
    split; [discriminate|intros Ha; contradiction].
Qed.

(** X17. [phold_new] never returns NULL: when the options are not accepted
    the clean-up reads the host name that was never set and the run stops
    there; a run that returns gives a client with its magic number, a base
    name and a host name. *)
Theorem phold_new_never_returns_NULL
    (argc : Z) (argv : option (list string)) (st : PSt) :
  forall r st',
    phold_new argc argv st = Some (r, st') ->
    r = true /\
    magic (phold st') = PHOLD_MAGIC /\
    basename (phold st') <> None /\
    hostname (phold st') <> None.
Proof.
  intros r st' Hnew. unfold phold_new in Hnew. revert Hnew. prun.
  set (st0 := {| phold := set_magic PHOLD_MAGIC zero_PHold;
                 kernel := kernel st;
                 pholdLogFilterLevel := pholdLogFilterLevel st;
                 printed := printed st;
                 oscalls := oscalls st ++ [Os_g_new0_PHold] |}).
  destruct (parseOptions_effect argc argv st0 eq_refl eq_refl) as [Hstop Hrun].
  destruct (Z.eq_dec (fst (fst (os_gethostname (kernel st0)))) 0) as [Hname|Hname].
  2:{ rewrite (Hstop Hname). discriminate. }
  destruct (Hrun Hname) as (parsed & st1 & Hparse & Hyes & Hno & Hmagic1).
  rewrite Hparse.
  match type of Hyes with ?accepted -> _ =>
    assert (Hdec : parsed = TRUE /\ accepted \/ parsed = FALSE /\ ~ accepted)
  end.
  { destruct (Z.eq_dec argc ARGC_PEER) as [Hargc|Hargc];
      [|right; split; [apply Hno|]; tauto].
    destruct argv as [l|];
      [|right; split; [apply Hno|]; intros (_ & l & ? & _); discriminate].
    destruct (forallb known_option (option_tokens l)) eqn:Hknown;
      [|right; split; [apply Hno|]; intros (_ & l' & [= <-] & ? & _); congruence].
    destruct (existsb names_basename (option_tokens l)) eqn:Hnamed;
      [|right; split; [apply Hno|]; intros (_ & l' & [= <-] & _ & ?); congruence].
    left. assert (Hacc : argc = ARGC_PEER /\
                     exists l0, Some l = Some l0 /\
                       forallb known_option (option_tokens l0) = true /\
                       existsb names_basename (option_tokens l0) = true)
      by (split; [assumption|]; exists l; auto).
    split; [apply Hyes; exact Hacc|exact Hacc]. }
  destruct Hdec as [[-> Hacc]|[-> Hacc]].
  - cbn. intros [= <- <-]. destruct (Hyes Hacc) as (_ & Hhost & Hbase). auto.
  - cbn [Z.eqb FALSE]. rewrite free_without_hostname; [discriminate|].
    destruct (Hno Hacc) as (_ & ->). reflexivity.
Qed.

End ClientProperties.

(** ** The further properties at concrete runs *)

Section MoreScenarios.
Import Reference.

Local Abbreviation fresh w := (start (C := reference) w).

Ltac evaluate :=
  first [ lia | reflexivity
        | vm_compute; first [reflexivity | discriminate | tauto] ].

(** [epoll_wait(4, 4096, 10, 0)], on the socket. *)
Lemma epoll_wait_invalid_epoll_witness :
  syscallhandler_epoll_wait (syscall_args SYS_epoll_wait [4; 4096; 10; 0]) (fresh idle) =
    Some (syscall_done (- EINVAL),
          {| world := idle;
             calls := [] ++ [ Call_host_lookupDescriptor 4;
                              Call_validateDescriptor (Some 4%N) DT_EPOLL ] |}).
Proof.
  apply (epoll_wait_invalid_epoll
           (syscall_args SYS_epoll_wait [4; 4096; 10; 0]) (fresh idle));
    evaluate.
Defined.

(** [epoll_ctl(8, 1, 4, 4096)], on a handle that is not open. *)
Lemma epoll_ctl_invalid_epoll_witness :
  syscallhandler_epoll_ctl (ctl_call 8 1 4 4096) (fresh idle) =
    Some (syscall_done (- EBADF),
          {| world := idle;
             calls := [] ++ [ Call_host_lookupDescriptor 8;
                              Call_validateDescriptor None DT_EPOLL ] |}).
Proof.
  apply (epoll_ctl_invalid_epoll (ctl_call 8 1 4 4096) (fresh idle)); evaluate.
Defined.

Lemma epoll_wait_window_is_bounded_witness :
  {| val := 4096 |} = wait_eventsPtr (wait_call 10 (-1)) /\
  exists (epoll : N) (n : Z),
    resolves_epoll (C := reference) readable (wait_epfd (wait_call 10 (-1))) epoll /\
    12 = sizeof_epoll_event * n /\
    1 <= n <= wait_maxevents (wait_call 10 (-1)) /\
    n <= Z.of_N (epoll_getNumReadyEvents readable epoll) /\
    12 < 2 ^ 35.
Proof.
  pose (window := {| win_ptr := {| val := 4096 |}; win_size := 12 |}).
  pose (cs := [ Call_host_lookupDescriptor 3;
                Call_validateDescriptor (Some 3%N) DT_EPOLL;
                Call_epoll_getNumReadyEvents 3%N;
                Call_thread_getWriteablePtr {| val := 4096 |} 12;
                Call_epoll_getEvents 3%N window 1 ] : list (@Call reference)).
  pose (s' := {| world := snd (ref_getEvents 3%N window 1 readable);
                 calls := cs |} : @St reference).
  apply (epoll_wait_window_is_bounded (wait_call 10 (-1)) (fresh readable)
           (syscall_done 1) s' cs).
  - reflexivity.
  - reflexivity.
  - cbn. tauto.
Defined.

Lemma epoll_wait_ready_ignores_timeout_witness :
  syscallhandler_epoll_wait (wait_call 10 0) (fresh readable) =
    syscallhandler_epoll_wait (wait_call 10 (-1)) (fresh readable) /\
  forall r s', syscallhandler_epoll_wait (wait_call 10 (-1)) (fresh readable) = Some (r, s') ->
    exists cs, calls s' = [] ++ cs /\ ~ In Call_wasBlocked cs.
Proof.
  apply (epoll_wait_ready_ignores_timeout (wait_call 10 (-1)) (wait_call 10 0)
           (fresh readable) 3%N); try (split; evaluate); evaluate.
Defined.

Lemma epoll_create_is_create1_without_flags_witness :
  syscallhandler_epoll_create (create_call 4096) (fresh idle) =
    syscallhandler_epoll_create1 (create1_call 0) (fresh idle).
Proof.
  apply (epoll_create_is_create1_without_flags (create_call 4096) (create1_call 0)
           (fresh idle)); evaluate.
Defined.

(** [epoll_ctl] with epfd 3 and an fd register of 2^32 + 3. *)
Lemma epoll_ctl_compares_low_words_witness :
  syscallhandler_epoll_ctl (ctl_call 3 1 (2 ^ 32 + 3) 4096) (fresh idle) =
    Some (syscall_done (- EINVAL), fresh idle).
Proof.
  apply (epoll_ctl_compares_low_words (ctl_call 3 1 (2 ^ 32 + 3) 4096) (fresh idle));
    evaluate.
Defined.

(** A maxevents register of 2^32, and one of 2^32 + 10. *)
Lemma epoll_wait_maxevents_low_word_witness :
  syscallhandler_epoll_wait (wait_call (2 ^ 32) 0) (fresh idle) =
    Some (syscall_done (- EINVAL), fresh idle) /\
  wait_maxevents (wait_call (2 ^ 32 + 10) 0) = 10.
Proof.
  split.
  - apply (proj1 (epoll_wait_maxevents_low_word (wait_call (2 ^ 32) 0) (fresh idle))).
    left. evaluate.
  - apply (proj2 (epoll_wait_maxevents_low_word (wait_call (2 ^ 32 + 10) 0) (fresh idle))).
    evaluate.
Defined.

End MoreScenarios.

Section ClientScenarios.
Import PHoldTest.

Ltac evaluate :=
  first [ lia
        | reflexivity
        | vm_compute;
          first [ reflexivity | discriminate | tauto
                | (split; [discriminate | reflexivity]) ] ].

Lemma node_address_round_trip_witness :
  htonl (node_address 0) = (1 + BASE_IP_ADDR + 0) mod 2 ^ 32 /\
  (node_address 0 = node_address 1 -> 0 = 1).
Proof. apply (node_address_round_trip 0 1); evaluate. Defined.

Lemma sendNewMessage_always_sends_witness :
  exists st' idx st1 lines,
    _phold_chooseNode sample_start = Some (idx, st1) /\
    0 <= idx < 2 ^ 32 /\
    _phold_sendNewMessage sample_start = Some (tt, st') /\
    printed st' = printed sample_start ++ lines /\
    Forall (fun l => format l <> "Unable to choose valid peer index"%string) lines /\
    let socketd :=
      fst (os_socket AF_INET (Z.lor SOCK_DGRAM SOCK_NONBLOCK) 0 (kernel st1)) in
    oscalls st' = oscalls sample_start ++
      [ Os_random;
        Os_socket AF_INET (Z.lor SOCK_DGRAM SOCK_NONBLOCK) 0;
        Os_sendto socketd (sendbuf (phold sample_start)) (size (phold sample_start)) 0
          {| sin_family := AF_INET; sin_port := htons PHOLD_LISTEN_PORT;
             sin_addr := node_address idx |};
        Os_close socketd ].
Proof.
  apply (sendNewMessage_always_sends sample_start "peer1"); evaluate.
Defined.

Lemma sendNewMessage_without_peers_witness :
  exists st' socketd,
    _phold_sendNewMessage (toy_state (set_num_peers 0 sample_PHold) toy_kernel) =
      Some (tt, st') /\
    oscalls st' = [] ++
      [ Os_random;
        Os_socket AF_INET (Z.lor SOCK_DGRAM SOCK_NONBLOCK) 0;
        Os_sendto socketd 4096 64 0
          {| sin_family := AF_INET; sin_port := htons PHOLD_LISTEN_PORT;
             sin_addr := htonl BASE_IP_ADDR |};
        Os_close socketd ].
Proof.
  apply (sendNewMessage_without_peers
           (toy_state (set_num_peers 0 sample_PHold) toy_kernel) "peer1"); evaluate.
Defined.

Lemma sendToNode_accounting_witness :
  exists st',
    _phold_sendToNode 1 (htons PHOLD_LISTEN_PORT) 4096 64 sample_start =
      Some (TRUE, st') /\
    phold st' = count_sent 64 sample_PHold /\
    oscalls st' =
      [ Os_socket AF_INET (Z.lor SOCK_DGRAM SOCK_NONBLOCK) 0;
        Os_sendto 3 4096 64 0
          {| sin_family := AF_INET; sin_port := htons PHOLD_LISTEN_PORT;
             sin_addr := node_address 1 |};
        Os_close 3 ].
Proof.
  apply (sendToNode_accounting 1 (htons PHOLD_LISTEN_PORT) 4096 64 sample_start "peer1").
  evaluate.
Defined.

Lemma bootstrapMessages_sends_msgload_witness :
  exists st' cs k,
    _phold_bootstrapMessages sample_start = Some (tt, st') /\
    oscalls st' = oscalls sample_start ++ cs /\
    count_calls is_socket cs = 3%nat /\
    count_calls is_sendto cs = 3%nat /\
    count_calls is_close cs = 3%nat /\
    (k <= 3)%nat /\
    num_msgs_sent (phold st') mod 2 ^ 64 =
      (num_msgs_sent (phold sample_start) + Z.of_nat k) mod 2 ^ 64 /\
    num_msgs_sent_tot (phold st') mod 2 ^ 64 =
      (num_msgs_sent_tot (phold sample_start) + Z.of_nat k) mod 2 ^ 64.
Proof.
  apply (bootstrapMessages_sends_msgload sample_start "peer1"); evaluate.
Defined.

(** A client whose timer was never opened (timerd -1), and the sample
    client. *)
Lemma startListening_checks_the_timer_witness :
  (exists st',
     _phold_startListening (toy_state (set_timerd (-1) sample_PHold) toy_kernel) =
       Some (-1, st') /\
     listend (phold st') = 3 /\
     oscalls st' = [ Os_socket AF_INET (Z.lor SOCK_DGRAM SOCK_NONBLOCK) 0 ]) /\
  (exists st',
     _phold_startListening sample_start = Some (0, st') /\
     listend (phold st') = 3 /\
     oscalls st' =
       [ Os_socket AF_INET (Z.lor SOCK_DGRAM SOCK_NONBLOCK) 0;
         Os_bind 3 {| sin_family := AF_INET; sin_port := htons PHOLD_LISTEN_PORT;
                      sin_addr := htonl INADDR_ANY |} ]).
Proof.
  split.
  - apply (proj1 (startListening_checks_the_timer
                    (toy_state (set_timerd (-1) sample_PHold) toy_kernel)
                    ltac:(evaluate))).
    evaluate.
  - apply (proj2 (startListening_checks_the_timer sample_start ltac:(evaluate))).
    evaluate.
Defined.

Lemma startListening_after_timer_always_binds_witness :
  exists st2,
    _phold_startListening sample_timer_started = Some (0, st2) /\
    oscalls st2 = oscalls sample_timer_started ++
      [ Os_socket AF_INET (Z.lor SOCK_DGRAM SOCK_NONBLOCK) 0;
        Os_bind 4 {| sin_family := AF_INET; sin_port := htons PHOLD_LISTEN_PORT;
                     sin_addr := htonl INADDR_ANY |} ].
Proof.
  apply (startListening_after_timer_always_binds sample_start sample_timer_started).
  evaluate.
Defined.

Lemma free_closes_listener_and_epoll_only_witness :
  exists st' cs,
    _phold_free (toy_state (set_listend 4 (set_timerd 3 sample_PHold)) toy_kernel) =
      Some (tt, st') /\
    oscalls st' = [] ++ cs /\
    magic (phold st') = 0 /\
    forall fd, In (Os_close fd) cs <-> (fd = 4 /\ 0 < fd) \/ (fd = 0 /\ 0 < fd).
Proof.
  apply (proj2 (free_closes_listener_and_epoll_only
                  (toy_state (set_listend 4 (set_timerd 3 sample_PHold)) toy_kernel)
                  ltac:(evaluate))).
  evaluate.
Defined.

Lemma phold_new_never_returns_NULL_witness :
  true = true /\
  magic (phold sample_new) = PHOLD_MAGIC /\
  basename (phold sample_new) <> None /\
  hostname (phold sample_new) <> None.
Proof.
  apply (phold_new_never_returns_NULL ARGC_PEER (Some sample_argv)
           (toy_state zero_PHold toy_kernel) true sample_new).
  reflexivity.
Defined.

Lemma parseOptions_accepts_exactly_witness :
  exists r st',
    _phold_parseOptions ARGC_PEER (Some sample_argv)
      (toy_state (set_magic PHOLD_MAGIC zero_PHold) toy_kernel) = Some (r, st') /\
    (r = TRUE \/ r = FALSE) /\
    (r = TRUE <->
       ARGC_PEER = ARGC_PEER /\
       exists l, Some sample_argv = Some l /\
         forallb known_option (option_tokens l) = true /\
         existsb names_basename (option_tokens l) = true).
Proof.
  apply (parseOptions_accepts_exactly ARGC_PEER (Some sample_argv)
           (toy_state (set_magic PHOLD_MAGIC zero_PHold) toy_kernel)); evaluate.
Defined.

(** Options that repeat a key are accepted as long as six are known and
    one names the base name; an unknown key is not. *)
Example repeated_options_are_accepted :
  option_map fst
    (_phold_parseOptions ARGC_PEER
       (Some [ "phold"; "basename=a"; "basename=b"; "size=1"; "size=2";
               "loglevel=debug"; "LOGLEVEL=info" ]%string)
       (toy_state (set_magic PHOLD_MAGIC zero_PHold) toy_kernel)) = Some TRUE /\
  option_map fst
    (_phold_parseOptions ARGC_PEER
       (Some [ "phold"; "basename=a"; "quantity=4"; "msgload=3"; "cpuload=0";
               "size=64"; "port=8998" ]%string)
       (toy_state (set_magic PHOLD_MAGIC zero_PHold) toy_kernel)) = Some FALSE.
Proof. vm_compute. split; reflexivity. Qed.

(** With options that are not accepted [phold_new] stops in the
    clean-up. *)
Example phold_new_stops_on_bad_options :
  phold_new 2 (Some [ "phold"; "help" ]%string) (toy_state zero_PHold toy_kernel) = None.
Proof. reflexivity. Qed.

End ClientScenarios.
